(** * A-share short-term decision tools: a shallow embedding

    The development follows the Python package [tools/]:

    - [Py]           exceptions that can reach a caller, as an error monad;
    - [PyFloat]      Python floats: exact rationals together with the three
                     non-finite values [inf], [-inf] and [nan];
    - [PyStr]        the string built-ins the parsers use;
    - [Indicators]   [clamp], [trend_up], [volume_ratio];
    - [MarketData]   tools/market_data.py;
    - [MoneyFlow]    tools/money_flow.py;
    - [FusionEngine] tools/fusion_engine.py.

    Numbers.  A finite Python float is represented by the rational it
    denotes, and arithmetic on finite values is exact: binary64 rounding
    and overflow are not modelled.  Comparisons, [nan] propagation,
    [int()] on non-finite values and [round(x, n)] (round half to even on
    the exact value) behave as in CPython.

    Exceptions.  An upstream call that raises is caught where the source
    catches it, by a [match] on the answer.  What the source does not
    catch ([int()] of a non-finite float, a division by zero, an index out
    of range) is a [Raise] of the monad [Py.t] and reaches the caller.

    Upstream.  Every akshare endpoint is a field of the record [Upstream]:
    a call either raises or returns a frame.  The model is a frozen
    snapshot: the same call gives the same answer within one run.

    Diagnostics.  Payloads are those of [debug=False]: [with_debug] only
    attaches [debug_info].  Of the diagnostics, the [api_calls] entries of
    the date probe are kept, since they record which dates were tried.

    Strings are UTF-8 byte strings; a Chinese field name or suffix is the
    byte sequence of its characters. *)

From Stdlib Require Import ZArith QArith Qround Lqa Lia.
From Stdlib Require Import List Bool String Ascii DecimalString.
From Stdlib Require Import Permutation Sorted.
Import ListNotations.

Local Open Scope string_scope.
Local Open Scope Z_scope.

(* ================================================================== *)
(** * Exceptions *)

Module Py.

Inductive exn : Type :=
| ValueError
| OverflowError
| ZeroDivisionError
| IndexError.

Inductive t (A : Type) : Type :=
| Ok (a : A)
| Raise (e : exn).

Arguments Ok {A} a.
Arguments Raise {A} e.

Definition bind {A B} (m : t A) (k : A -> t B) : t B :=
  match m with
  | Ok a => k a
  | Raise e => Raise e
  end.


(** [for x in xs: out.append(f(x))], stopping at the first exception. *)
Fixpoint mapM {A B} (f : A -> t B) (xs : list A) : t (list B) :=
  match xs with
  | [] => Ok []
  | x :: rest =>
      bind (f x) (fun y => bind (mapM f rest) (fun ys => Ok (y :: ys)))
  end.

End Py.

Notation "x <- m ;; k" := (Py.bind m (fun x => k))
  (at level 61, m at next level, right associativity).
Abbreviation Ok := Py.Ok.
Abbreviation Raise := Py.Raise.

(* ================================================================== *)
(** * Floats *)

Module PyFloat.

Inductive pyfloat : Type :=
| Fin (q : Q)
| PInf
| NInf
| NaN.

Definition of_Z (z : Z) : pyfloat := Fin (inject_Z z).
Definition of_nat (n : nat) : pyfloat := of_Z (Z.of_nat n).

Definition Qltb (a b : Q) : bool := negb (Qle_bool b a).

Definition isfinite (x : pyfloat) : bool :=
  match x with Fin _ => true | _ => false end.

(** ** Comparisons ([nan] compares false with everything) *)

Definition flt (x y : pyfloat) : bool :=
  match x, y with
  | NaN, _ | _, NaN => false
  | Fin a, Fin b => Qltb a b
  | NInf, NInf => false
  | NInf, _ => true
  | _, PInf => match x with PInf => false | _ => true end
  | _, _ => false
  end.

Definition feqb (x y : pyfloat) : bool :=
  match x, y with
  | Fin a, Fin b => Qeq_bool a b
  | PInf, PInf => true
  | NInf, NInf => true
  | _, _ => false
  end.

Definition fgt (x y : pyfloat) : bool := flt y x.
Definition fle (x y : pyfloat) : bool := flt x y || feqb x y.
Definition fge (x y : pyfloat) : bool := fle y x.
Definition fne (x y : pyfloat) : bool := negb (feqb x y).

(** Truth value of a float: [bool(x)] is [x != 0]. *)
Definition truthy (x : pyfloat) : bool := fne x (Fin 0).

(** ** Arithmetic *)

Definition fneg (x : pyfloat) : pyfloat :=
  match x with
  | Fin q => Fin (- q)
  | PInf => NInf
  | NInf => PInf
  | NaN => NaN
  end.

Definition fadd (x y : pyfloat) : pyfloat :=
  match x, y with
  | NaN, _ | _, NaN => NaN
  | Fin a, Fin b => Fin (a + b)
  | PInf, NInf | NInf, PInf => NaN
  | PInf, _ | _, PInf => PInf
  | NInf, _ | _, NInf => NInf
  end.

Definition fsub (x y : pyfloat) : pyfloat := fadd x (fneg y).

(** The infinity of the sign of [q] times [inf]; [nan] for [q == 0]. *)
Definition signed_inf (positive : bool) (q : Q) : pyfloat :=
  if Qeq_bool q 0 then NaN
  else if Bool.eqb positive (Qltb 0 q) then PInf else NInf.

Definition fmul (x y : pyfloat) : pyfloat :=
  match x, y with
  | NaN, _ | _, NaN => NaN
  | Fin a, Fin b => Fin (a * b)
  | PInf, Fin q | Fin q, PInf => signed_inf true q
  | NInf, Fin q | Fin q, NInf => signed_inf false q
  | PInf, PInf | NInf, NInf => PInf
  | PInf, NInf | NInf, PInf => NInf
  end.

(** The IEEE quotient.  Python raises [ZeroDivisionError] on a zero
    divisor before any quotient is formed: that is [py_div] below, and
    [fdiv] is applied directly only to non-zero literals. *)
Definition fdiv (x y : pyfloat) : pyfloat :=
  match x, y with
  | NaN, _ | _, NaN => NaN
  | Fin a, Fin b => if Qeq_bool b 0 then NaN else Fin (a / b)
  | Fin _, _ => Fin 0
  | PInf, Fin q => signed_inf true q
  | NInf, Fin q => signed_inf false q
  | _, _ => NaN
  end.

Definition py_div (x y : pyfloat) : Py.t pyfloat :=
  if feqb y (Fin 0) then Raise Py.ZeroDivisionError else Ok (fdiv x y).

(** ** Built-ins *)

(** [max(a, b)] and [min(a, b)]: the first argument is kept unless the
    second is strictly larger (smaller). *)
Definition py_max (a b : pyfloat) : pyfloat := if fgt b a then b else a.
Definition py_min (a b : pyfloat) : pyfloat := if flt b a then b else a.

(** [sum(xs)]: the fold starts from the integer 0. *)
Definition py_sum (xs : list pyfloat) : pyfloat := fold_left fadd xs (Fin 0).

(** [int(x)]: truncation toward zero; [nan] and the infinities raise. *)
Definition Qtrunc (q : Q) : Z :=
  if Qle_bool 0 q then Qfloor q else Qceiling q.

Definition py_int (x : pyfloat) : Py.t Z :=
  match x with
  | Fin q => Ok (Qtrunc q)
  | NaN => Raise Py.ValueError
  | PInf | NInf => Raise Py.OverflowError
  end.

(** Round half to even, to an integer. *)
Definition round_half_even (q : Q) : Z :=
  let f := Qfloor q in
  let r := (q - inject_Z f)%Q in
  if Qltb r (1 # 2) then f
  else if Qltb (1 # 2) r then f + 1
  else if Z.even f then f else f + 1.

(** [round(x, ndigits)]; the non-finite values are returned unchanged. *)
Definition py_round (x : pyfloat) (ndigits : nat) : pyfloat :=
  match x with
  | Fin q =>
      let scale := inject_Z (10 ^ Z.of_nat ndigits) in
      Fin (inject_Z (round_half_even (q * scale)) / scale)
  | _ => x
  end.

(** [lo <= x <= hi] for a finite [x]; false for the non-finite values. *)
Definition within (lo hi : Q) (x : pyfloat) : Prop :=
  match x with
  | Fin q => (lo <= q /\ q <= hi)%Q
  | _ => False
  end.

End PyFloat.
Export PyFloat.

Declare Scope pyfloat_scope.
Delimit Scope pyfloat_scope with F.
Bind Scope pyfloat_scope with pyfloat.
Infix "+" := fadd : pyfloat_scope.
Infix "-" := fsub : pyfloat_scope.
Infix "*" := fmul : pyfloat_scope.
Infix "/" := fdiv : pyfloat_scope.

(* ================================================================== *)
(** * Strings *)

Module PyStr.

Definition chars : string -> list ascii := list_ascii_of_string.
Definition text : list ascii -> string := string_of_list_ascii.

(** ASCII white space, as removed by [str.strip()]. *)
Definition is_space (c : ascii) : bool :=
  let n := nat_of_ascii c in
  (n =? 32)%nat || ((9 <=? n)%nat && (n <=? 13)%nat).

Definition is_digit (c : ascii) : bool :=
  let n := nat_of_ascii c in (48 <=? n)%nat && (n <=? 57)%nat.

Fixpoint drop_while (p : ascii -> bool) (cs : list ascii) : list ascii :=
  match cs with
  | c :: rest => if p c then drop_while p rest else cs
  | [] => []
  end.

Fixpoint take_while (p : ascii -> bool) (cs : list ascii) : list ascii :=
  match cs with
  | c :: rest => if p c then c :: take_while p rest else []
  | [] => []
  end.

Definition strip (s : string) : string :=
  text (rev (drop_while is_space (rev (drop_while is_space (chars s))))).

(** [s.replace(c, "")] for a one-character [c]. *)
Definition remove_char (c : ascii) (s : string) : string :=
  text (filter (fun d => negb (Ascii.eqb c d)) (chars s)).

Fixpoint starts_with (p cs : list ascii) : bool :=
  match p, cs with
  | [], _ => true
  | a :: p', b :: cs' => Ascii.eqb a b && starts_with p' cs'
  | _ :: _, [] => false
  end.

Definition endswith (s suffix : string) : bool :=
  starts_with (rev (chars suffix)) (rev (chars s)).

(** [s[:-1]] for an [s] that ends with the character [suffix]: strings
    are UTF-8 here, so the last character is the whole byte sequence. *)
Definition drop_suffix (s suffix : string) : string :=
  text (rev (skipn (List.length (chars suffix)) (rev (chars s)))).

Definition lower (c : ascii) : ascii :=
  let n := nat_of_ascii c in
  if (65 <=? n)%nat && (n <=? 90)%nat then ascii_of_nat (n + 32) else c.

Definition digit_value (c : ascii) : Z := Z.of_nat (nat_of_ascii c) - 48.

Definition digits_value (ds : list ascii) : Z :=
  fold_left (fun acc d => 10 * acc + digit_value d) ds 0.

Definition string_of_Z (z : Z) : string :=
  NilEmpty.string_of_int (Z.to_int z).

(** [re.search(r"(\d+)", s)]: the first maximal run of digits. *)
Definition first_digits (s : string) : option Z :=
  match drop_while (fun c => negb (is_digit c)) (chars s) with
  | [] => None
  | cs => Some (digits_value (take_while is_digit cs))
  end.

(** ** [float(s)]

    The literal grammar of [float()]: surrounding white space, an
    optional sign, then [inf], [infinity], [nan] (any case) or a decimal
    number with an optional fraction and exponent.  Digit-group
    underscores are not accepted here.  [None] stands for the
    [ValueError] of the built-in. *)

Definition signed (negative : bool) (x : pyfloat) : pyfloat :=
  if negative then fneg x else x.

Definition parse_exponent (cs : list ascii) : option Z :=
  match cs with
  | [] => Some 0
  | e :: rest =>
      if Ascii.eqb (lower e) "e"%char then
        let '(neg, ds) :=
          match rest with
          | "-"%char :: ds => (true, ds)
          | "+"%char :: ds => (false, ds)
          | _ => (false, rest)
          end in
        match ds with
        | [] => None
        | _ => if forallb is_digit ds
               then Some (if neg then - digits_value ds else digits_value ds)
               else None
        end
      else None
  end.

Definition parse_decimal (cs : list ascii) : option Q :=
  let ip := take_while is_digit cs in
  let rest := drop_while is_digit cs in
  let '(fp, rest) :=
    match rest with
    | "."%char :: r => (take_while is_digit r, drop_while is_digit r)
    | _ => ([], rest)
    end in
  match (ip ++ fp)%list with
  | [] => None
  | ds =>
      match parse_exponent rest with
      | Some e =>
          Some (inject_Z (digits_value ds)
                * Qpower 10 (e - Z.of_nat (List.length fp)))%Q
      | None => None
      end
  end.

Definition float_of_string (s : string) : option pyfloat :=
  let cs := chars (strip s) in
  let '(neg, body) :=
    match cs with
    | "-"%char :: r => (true, r)
    | "+"%char :: r => (false, r)
    | _ => (false, cs)
    end in
  let word := text (map lower body) in
  if String.eqb word "inf" || String.eqb word "infinity" then Some (signed neg PInf)
  else if String.eqb word "nan" then Some NaN
  else match parse_decimal body with
       | Some q => Some (signed neg (Fin q))
       | None => None
       end.

(** ** [str(x)] for a float: positional notation, at most 17 fractional
    digits (the exponent form of very large or small values is not
    modelled). *)

Fixpoint frac_digits (fuel : nat) (num den : Z) : list ascii :=
  match fuel with
  | O => []
  | S fuel' =>
      let d := (10 * num) / den in
      let r := (10 * num) mod den in
      ascii_of_nat (48 + Z.to_nat d)
        :: (if r =? 0 then [] else frac_digits fuel' r den)
  end.

Definition string_of_float (x : pyfloat) : string :=
  match x with
  | NaN => "nan"
  | PInf => "inf"
  | NInf => "-inf"
  | Fin q =>
      let n := Z.abs (Qnum q) in
      let d := Zpos (Qden q) in
      (if Qnum q <? 0 then "-" else "")
        ++ string_of_Z (n / d) ++ "." ++ text (frac_digits 17 (n mod d) d)
  end.

End PyStr.

(* ================================================================== *)
(** * Cells, rows and frames *)

(** A cell of an upstream record. *)
Inductive pyval : Type :=
| VNone
| VStr (s : string)
| VInt (z : Z)
| VFloat (f : pyfloat).

(** A record of [DataFrame.to_dict(orient="records")]: only look-up by
    key is used, so the dict is an association list read left to right. *)
Definition row : Type := list (string * pyval).

Fixpoint row_get (key : string) (r : row) : option pyval :=
  match r with
  | [] => None
  | (k, v) :: rest => if String.eqb k key then Some v else row_get key rest
  end.

(** What an upstream call hands back before [_to_records]. *)
Inductive frame : Type :=
| FNone
| FOther
| DataFrame (records : list row).

Inductive response : Type :=
| Raises
| Returns (f : frame).

Definition py_str (v : pyval) : string :=
  match v with
  | VNone => "None"
  | VStr s => s
  | VInt z => PyStr.string_of_Z z
  | VFloat f => PyStr.string_of_float f
  end.

(** [float(v)]; [None] is the exception ([TypeError] or [ValueError]). *)
Definition py_float (v : pyval) : option pyfloat :=
  match v with
  | VNone => None
  | VStr s => PyStr.float_of_string s
  | VInt z => Some (of_Z z)
  | VFloat f => Some f
  end.

Definition is_none (v : pyval) : bool :=
  match v with VNone => true | _ => false end.

(** [v == ""]. *)
Definition is_empty_str (v : pyval) : bool :=
  match v with VStr s => String.eqb s "" | _ => false end.

(** ** Slices and indices *)

Definition clip (len i : Z) : nat :=
  Z.to_nat (if i <? 0 then Z.max (len + i) 0 else Z.min i len).

(** [xs[start:stop]]; [None] is an omitted bound. *)
Definition py_slice {A} (xs : list A) (start stop : option Z) : list A :=
  let len := Z.of_nat (List.length xs) in
  let i := match start with Some s => clip len s | None => O end in
  let j := match stop with Some s => clip len s | None => List.length xs end in
  firstn (j - i) (skipn i xs).

(** [xs[-k]]: the [k]-th element from the end. *)
Definition py_index_back {A} (xs : list A) (k : nat) : Py.t A :=
  match nth_error (rev xs) (pred k) with
  | Some a => Ok a
  | None => Raise Py.IndexError
  end.

Section Examples.
Import PyStr.
Local Open Scope Q_scope.

Example float_plain : float_of_string " 1,5 " = None.
Proof. reflexivity. Qed.
Example float_dec : float_of_string "-12.50" = Some (Fin (- (1250 * (1 # 100)))).
Proof. reflexivity. Qed.
Example float_exp : float_of_string "2e3" = Some (Fin (2 * 1000)).
Proof. vm_compute. reflexivity. Qed.
Example float_nan : float_of_string "NaN" = Some NaN.
Proof. reflexivity. Qed.
Example float_inf : float_of_string "-inf" = Some NInf.
Proof. reflexivity. Qed.
Example float_bad : float_of_string "--" = None.
Proof. reflexivity. Qed.
Example str_float : string_of_float (Fin (5 # 2)) = "2.5"%string.
Proof. reflexivity. Qed.
Example digits_run : first_digits "3天2板" = Some 3%Z.
Proof. reflexivity. Qed.
Example slice_tail : py_slice [1; 2; 3; 4; 5; 6; 7]%Z (Some (-6)%Z) (Some (-1)%Z)
                     = [2; 3; 4; 5; 6]%Z.
Proof. reflexivity. Qed.
Example slice_short : py_slice [1; 2; 3; 4; 5]%Z (Some (-6)%Z) (Some (-1)%Z)
                      = [1; 2; 3; 4]%Z.
Proof. reflexivity. Qed.
Example yi_suffix : drop_suffix "1.2亿" "亿" = "1.2"%string.
Proof. reflexivity. Qed.
End Examples.

(** ** Lists *)

(** [list.sort(key=..., reverse=True)]: a stable descending sort; [gt y x]
    is [key(y) > key(x)].  An element stays ahead of the later elements
    that do not compare strictly greater. *)
Fixpoint insert_desc {A} (gt : A -> A -> bool) (x : A) (l : list A) : list A :=
  match l with
  | [] => [x]
  | y :: rest => if gt y x then y :: insert_desc gt x rest else x :: l
  end.

Fixpoint sort_desc {A} (gt : A -> A -> bool) (l : list A) : list A :=
  match l with
  | [] => []
  | x :: rest => insert_desc gt x (sort_desc gt rest)
  end.

(** [x in xs] for strings. *)
Definition mem (x : string) (xs : list string) : bool :=
  existsb (String.eqb x) xs.

(** [enumerate(xs, start)]. *)
Fixpoint enumerate {A} (start : Z) (xs : list A) : list (Z * A) :=
  match xs with
  | [] => []
  | x :: rest => (start, x) :: enumerate (start + 1) rest
  end.

(* ================================================================== *)
(** * The upstream data provider *)

(** The state of the imports and one answer per akshare endpoint.  An
    endpoint that the code looks up with [hasattr] is optional.  Dates are
    proleptic Gregorian ordinals ([date.toordinal()]); the code passes them
    as [%Y%m%d] text. *)
Record Upstream : Type := {
  ak_present : bool;
  pd_present : bool;
  today : Z;
  stock_zt_pool_em : Z -> response;
  stock_zt_pool_dtgc_em : Z -> response;
  stock_zt_pool_zbgc_em : option (Z -> response);
  stock_zh_a_spot_em : response;
  stock_board_industry_name_em : response;
  stock_board_concept_name_em : option response;
  stock_board_industry_cons_em : option (string -> response);
  stock_board_concept_cons_em : option (string -> response);
  stock_zh_a_hist : string -> response;
  stock_hsgt_north_net_flow_in_em : response;
  stock_hsgt_hist_em : option (string -> response);
  stock_individual_fund_flow : string -> response;
  stock_individual_fund_flow_rank : option (string -> response)
}.

(** [ak is None or pd is None] is false. *)
Definition runtime_present (w : Upstream) : bool := ak_present w && pd_present w.

(* ================================================================== *)
(** * tools/indicators.py *)

Module Indicators.

(** Modelled from the spec: tools/indicators.py is not among the
    sources.  Sections 4.2 to 4.6 write [clamp(x, lo, hi)] for [x]
    limited to the interval from [lo] to [hi], and section 8 requires
    every clamped score to stay in range for any raw input; the model is
    [max(lo, min(hi, x))]. *)
Definition clamp (x lo hi : pyfloat) : pyfloat := py_max lo (py_min hi x).

(** Modelled from the spec: "a 3-day upward trailing-close trend"
    (section 4.4) is read as: there are at least [lookback] closes and
    the last [lookback] of them increase strictly. *)
Fixpoint increasing (xs : list pyfloat) : bool :=
  match xs with
  | a :: (b :: _) as rest => flt a b && increasing rest
  | _ => true
  end.

Definition trend_up (closes : list pyfloat) (lookback : nat) : bool :=
  (lookback <=? List.length closes)%nat
  && increasing (py_slice closes (Some (- Z.of_nat lookback)) None).

(** Modelled from the spec: the glossary defines the volume ratio as
    the current volume divided by a trailing baseline average volume,
    and the data model (section 3) requires [volume_ratio >= 0]; where
    that quotient is not a non-negative number (a baseline that is not
    positive, a negative or non-finite operand) the model gives 0.0. *)
Definition volume_ratio (current baseline : pyfloat) : pyfloat :=
  match current, baseline with
  | Fin c, Fin b => if Qltb 0 b && Qle_bool 0 c then Fin (c / b) else Fin 0
  | _, _ => Fin 0
  end.

End Indicators.

(* ================================================================== *)
(** * tools/market_data.py *)

Module MarketData.
Import Indicators.

Record StockCandidate : Type := {
  code : string;
  name : string;
  change_pct : pyfloat;
  volume_ratio : pyfloat;
  strength_rank : Z;
  sector : string
}.

(** The dictionary of [StockCandidate.to_dict], kept as a record of
    the same shape with the two floats rounded. *)
Definition to_dict (c : StockCandidate) : StockCandidate :=
  {| code := code c;
     name := name c;
     change_pct := py_round (change_pct c) 2;
     volume_ratio := py_round (volume_ratio c) 2;
     strength_rank := strength_rank c;
     sector := sector c |}.

Definition _to_records (w : Upstream) (f : frame) : list row :=
  match f with
  | FNone => []
  | _ =>
      if negb (pd_present w) then []
      else match f with
           | DataFrame records => records
           | _ => []
           end
  end.

Fixpoint _num (r : row) (keys : list string) (default : pyfloat) : pyfloat :=
  match keys with
  | [] => default
  | key :: rest =>
      match row_get key r with
      | Some v =>
          if negb (is_none v) && negb (is_empty_str v) then
            match py_float v with
            | Some x => x
            | None => _num r rest default
            end
          else _num r rest default
      | None => _num r rest default
      end
  end.

Fixpoint _str (r : row) (keys : list string) (default : string) : string :=
  match keys with
  | [] => default
  | key :: rest =>
      match row_get key r with
      | Some v => if negb (is_none v) then PyStr.strip (py_str v)
                  else _str r rest default
      | None => _str r rest default
      end
  end.

Definition _normalize_number (value : pyval) : pyfloat :=
  match value with
  | VNone => Fin 0
  | VInt z => of_Z z
  | VFloat out => if isfinite out then out else Fin 0
  | VStr s =>
      if String.eqb s "" then Fin 0
      else
        let text := PyStr.remove_char ","%char (PyStr.strip s) in
        if String.eqb text "-" || String.eqb text "--" then Fin 0
        else
          let '(unit, text) :=
            if PyStr.endswith text "亿"
            then (Fin 100000000, PyStr.drop_suffix text "亿")
            else if PyStr.endswith text "万"
            then (Fin 10000, PyStr.drop_suffix text "万")
            else (Fin 1, text) in
          match PyStr.float_of_string text with
          | Some x => let out := (x * unit)%F in
                      if isfinite out then out else Fin 0
          | None => Fin 0
          end
  end.

(** [v in (0, "0", "0.0")]. *)
Definition is_zero_literal (v : pyval) : bool :=
  match v with
  | VNone => false
  | VInt z => z =? 0
  | VFloat f => feqb f (Fin 0)
  | VStr s => String.eqb s "0" || String.eqb s "0.0"
  end.

Fixpoint _num_unit (r : row) (keys : list string) (default : pyfloat) : pyfloat :=
  match keys with
  | [] => default
  | key :: rest =>
      match row_get key r with
      | Some v =>
          let parsed := _normalize_number v in
          if fne parsed (Fin 0) || is_zero_literal v then parsed
          else _num_unit r rest default
      | None => _num_unit r rest default
      end
  end.

Definition _parse_board_height (raw : pyval) : Py.t Z :=
  match raw with
  | VNone => Ok 0
  | VInt z => Ok z
  | VFloat f => py_int f
  | VStr s =>
      if String.eqb s "" then Ok 0
      else match PyStr.first_digits (PyStr.strip s) with
           | Some n => Ok n
           | None => Ok 0
           end
  end.

(** [date.weekday()]: Monday is 0. *)
Definition weekday (ordinal : Z) : Z := (ordinal + 6) mod 7.

Definition _recent_trade_dates (w : Upstream) (days : nat) : list Z :=
  filter (fun d => weekday d <? 5)
         (map (fun offset => today w - Z.of_nat offset) (seq 0 days)).

Record MarketSentiment : Type := {
  date : Z;
  limit_up : Z;
  limit_down : Z;
  max_height : Z;
  break_rate : pyfloat;
  turnover : Z;
  market_sentiment_score : pyfloat;
  data_source : string
}.

(** The score expression of lines 132-137 and 235-240. *)
Definition sentiment_expr (limit_up limit_down max_height : Z)
           (break_rate : pyfloat) : pyfloat :=
  (clamp (of_Z limit_up / Fin 70 * Fin 45) (Fin 0) (Fin 45)
   + clamp (of_Z (12 - limit_down) / Fin 12 * Fin 20) (Fin 0) (Fin 20)
   + clamp (of_Z max_height / Fin 6 * Fin 20) (Fin 0) (Fin 20)
   + clamp ((Fin 0.35 - break_rate) / Fin 0.35 * Fin 15) (Fin 0) (Fin 15))%F.

Definition _fallback_market_sentiment (w : Upstream) : MarketSentiment :=
  let limit_up := 42 in
  let limit_down := 9 in
  let max_height := 3 in
  let break_rate := Fin 0.21 in
  let turnover := 980000000000 in
  let score := sentiment_expr limit_up limit_down max_height break_rate in
  {| date := today w;
     limit_up := limit_up;
     limit_down := limit_down;
     max_height := max_height;
     break_rate := py_round break_rate 4;
     turnover := turnover;
     market_sentiment_score := py_round score 2;
     data_source := "fallback" |}.

(** One entry of [dbg["api_calls"]] written by the date probe. *)
Record ApiCall : Type := { api : string; call_date : Z; ok : bool }.

(** The probe loop of lines 171-182: the entries it appends to
    [dbg["api_calls"]], and the chosen date with its records. *)
Fixpoint probe_limit_up (w : Upstream) (dates : list Z)
  : list ApiCall * option (Z * list row) :=
  match dates with
  | [] => ([], None)
  | date_text :: rest =>
      match stock_zt_pool_em w date_text with
      | Returns zt_df =>
          let entry := {| api := "stock_zt_pool_em"; call_date := date_text; ok := true |} in
          match _to_records w zt_df with
          | [] => let '(log, found) := probe_limit_up w rest in (entry :: log, found)
          | records => ([entry], Some (date_text, records))
          end
      | Raises =>
          let entry := {| api := "stock_zt_pool_em"; call_date := date_text; ok := false |} in
          let '(log, found) := probe_limit_up w rest in (entry :: log, found)
      end
  end.

(** [try: _to_records(call) except: []]. *)
Definition records_or_empty (w : Upstream) (r : response) : list row :=
  match r with
  | Returns f => _to_records w f
  | Raises => []
  end.

Definition is_broken_state (r : row) : bool :=
  let state := _str r ["状态"; "涨停状态"; "封板状态"] "" in
  negb (String.eqb state "") && negb (mem state ["封板"; "涨停"]).

Definition get_market_sentiment (w : Upstream) : Py.t MarketSentiment :=
  if negb (runtime_present w) then Ok (_fallback_market_sentiment w)
  else
    match snd (probe_limit_up w (_recent_trade_dates w 10)) with
    | None => Ok (_fallback_market_sentiment w)
    | Some (chosen_date, zt_records) =>
        let dt_records := records_or_empty w (stock_zt_pool_dtgc_em w chosen_date) in
        let zb_records :=
          match stock_zt_pool_zbgc_em w with
          | Some endpoint => records_or_empty w (endpoint chosen_date)
          | None => []
          end in
        let limit_up := Z.of_nat (List.length zt_records) in
        let limit_down := Z.of_nat (List.length dt_records) in
        heights <- Py.mapM (fun r => _parse_board_height
                      (VStr (_str r ["连板数"; "连板"; "连板高度"; "几天几板"] "1")))
                    zt_records ;;
        let max_height := fold_left Z.max heights 0 in
        let break_count :=
          let n := Z.of_nat (List.length zb_records) in
          if n =? 0
          then Z.of_nat (List.length (filter is_broken_state zt_records))
          else n in
        let total_lu_events := limit_up + break_count in
        break_rate <- (if total_lu_events =? 0 then Ok (Fin 0)
                       else py_div (of_Z break_count) (of_Z total_lu_events)) ;;
        let turnover :=
          match stock_zh_a_spot_em w with
          | Returns f =>
              fold_left (fun acc r => (acc + _num_unit r ["成交额"; "成交额(元)"; "amount"] (Fin 0))%F)
                        (_to_records w f) (Fin 0)
          | Raises => Fin 0
          end in
        let score := sentiment_expr limit_up limit_down max_height break_rate in
        turnover_int <- py_int turnover ;;
        Ok {| date := chosen_date;
              limit_up := limit_up;
              limit_down := limit_down;
              max_height := max_height;
              break_rate := py_round break_rate 4;
              turnover := turnover_int;
              market_sentiment_score := py_round score 2;
              data_source := "akshare-live" |}
    end.

Record SectorStrength : Type := {
  sector_name : string;
  sector_change_pct : pyfloat;
  sector_turnover : Z;
  limit_up_count : Z;
  board_code : option string;   (* the fallback entries carry no board code *)
  strength : pyfloat
}.

Record SectorRotation : Type := {
  rotation_date : Z;
  top_sectors : list SectorStrength;
  rotation_source : string
}.

Definition _fallback_sector_rotation (w : Upstream) : SectorRotation :=
  {| rotation_date := today w;
     top_sectors :=
       [ {| sector_name := "AI-Compute"; sector_change_pct := Fin 4.2;
            sector_turnover := 62000000000; limit_up_count := 7;
            board_code := None; strength := Fin 85.2 |};
         {| sector_name := "Semiconductor"; sector_change_pct := Fin 3.6;
            sector_turnover := 58000000000; limit_up_count := 5;
            board_code := None; strength := Fin 79.8 |};
         {| sector_name := "Robotics"; sector_change_pct := Fin 2.9;
            sector_turnover := 44000000000; limit_up_count := 4;
            board_code := None; strength := Fin 72.3 |} ];
     rotation_source := "fallback" |}.

(** [max(xs) or 1.0] for a non-empty [xs]. *)
Definition max_or_one (first : pyfloat) (others : list pyfloat) : pyfloat :=
  let m := fold_left py_max others first in
  if truthy m then m else Fin 1.

(** The body of the loop of lines 300-324. *)
Definition sector_entry (max_turnover : pyfloat) (r : row) : Py.t SectorStrength :=
  let name := _str r ["板块名称"; "名称"] "UNKNOWN" in
  let change_pct := _num r ["涨跌幅"; "涨跌幅%"] (Fin 0) in
  let turnover := _num_unit r ["成交额"; "总成交额"; "总市值"] (Fin 0) in
  up_count <- py_int (_num r ["上涨家数"] (Fin 0)) ;;
  limit_up_count <- py_int (_num r ["涨停家数"] (Fin 0)) ;;
  limit_up_count <- (if (limit_up_count =? 0) && (0 <? up_count)
                     then py_int (of_Z up_count * Fin 0.08)%F
                     else Ok limit_up_count) ;;
  share <- py_div turnover max_turnover ;;
  let strength :=
    (clamp (change_pct / Fin 7 * Fin 45) (Fin 0) (Fin 45)
     + clamp (share * Fin 25) (Fin 0) (Fin 25)
     + clamp (of_Z limit_up_count / Fin 12 * Fin 30) (Fin 0) (Fin 30))%F in
  turnover_int <- py_int turnover ;;
  Ok {| sector_name := name;
        sector_change_pct := py_round change_pct 2;
        sector_turnover := turnover_int;
        limit_up_count := limit_up_count;
        board_code := Some (_str r ["板块代码"; "代码"] "");
        strength := py_round strength 2 |}.

Definition get_sector_rotation (w : Upstream) (top_n : Z) : Py.t SectorRotation :=
  if negb (runtime_present w) then Ok (_fallback_sector_rotation w)
  else
    let sector_rows := records_or_empty w (stock_board_industry_name_em w) in
    let sector_rows :=
      match sector_rows, stock_board_concept_name_em w with
      | [], Some concept => records_or_empty w concept
      | _, _ => sector_rows
      end in
    match map (fun r => _num_unit r ["成交额"; "总成交额"; "总市值"] (Fin 0)) sector_rows with
    | [] => Ok (_fallback_sector_rotation w)
    | first :: others =>
        let max_turnover := max_or_one first others in
        sectors <- Py.mapM (sector_entry max_turnover) sector_rows ;;
        let sectors := sort_desc (fun y x => fgt (strength y) (strength x)) sectors in
        Ok {| rotation_date := today w;
              top_sectors := py_slice sectors None (Some top_n);
              rotation_source := "akshare-live" |}
    end.

Definition fallback_base : list StockCandidate :=
  [ to_dict {| code := "300001"; name := "DemoTech"; change_pct := Fin 8.1;
               volume_ratio := Fin 2.4; strength_rank := 1; sector := "AI-Compute" |};
    to_dict {| code := "002345"; name := "ChipStar"; change_pct := Fin 6.8;
               volume_ratio := Fin 1.9; strength_rank := 2; sector := "Semiconductor" |};
    to_dict {| code := "688888"; name := "RoboCore"; change_pct := Fin 5.5;
               volume_ratio := Fin 1.7; strength_rank := 3; sector := "Robotics" |} ].

(** [if sectors:] holds for a list that is given and not empty. *)
Definition given (sectors : option (list string)) : option (list string) :=
  match sectors with
  | Some (_ :: _) => sectors
  | _ => None
  end.

Definition _fallback_scan_strong_stocks (sectors : option (list string)) (top_n : Z)
  : list StockCandidate :=
  let base := fallback_base in
  match given sectors with
  | Some names =>
      match filter (fun x => mem (sector x) names) base with
      | [] => py_slice base None (Some top_n)
      | filt => py_slice filt None (Some top_n)
      end
  | None => py_slice base None (Some top_n)
  end.

(** The constituent codes of one sector, lines 387-404. *)
Definition sector_codes (w : Upstream) (sector_name : string) : list string :=
  let codes_of (r : response) :=
    match r with
    | Returns cons_df =>
        filter (fun code => negb (String.eqb code ""))
               (map (fun record => _str record ["代码"; "股票代码"] "")
                    (_to_records w cons_df))
    | Raises => []
    end in
  match stock_board_industry_cons_em w, stock_board_concept_cons_em w with
  | Some industry, _ => codes_of (industry sector_name)
  | None, Some concept => codes_of (concept sector_name)
  | None, None => []
  end.

(** Lines 383-406; the set is read through membership and emptiness
    only and is kept as a list. *)
Definition allowed_codes (w : Upstream) (sectors : option (list string))
  : option (list string) :=
  match given sectors with
  | Some names =>
      match flat_map (sector_codes w) names with
      | [] => None
      | codes => Some codes
      end
  | None => None
  end.

Definition is_allowed (allowed : option (list string)) (code : string) : bool :=
  match allowed with
  | None => true
  | Some codes => mem code codes
  end.

(** The body of the loop of lines 420-477: [None] is [continue]. *)
Definition deep_filter (w : Upstream) (allowed : option (list string)) (r : row)
  : Py.t (option StockCandidate) :=
  let code := _str r ["代码"; "股票代码"] "" in
  let name := _str r ["名称"; "股票名称"] "" in
  let change_pct := _num r ["涨跌幅"] (Fin 0) in
  let turnover_rate := _num r ["量比"] (Fin 0) in
  let sector := _str r ["所处行业"; "行业"] "UNKNOWN" in
  if fle change_pct (Fin 5) then Ok None
  else if fle turnover_rate (Fin 1.5) then Ok None
  else if negb (is_allowed allowed code) then Ok None
  else
    match stock_zh_a_hist w code with
    | Raises => Ok None
    | Returns hist =>
        let records := _to_records w hist in
        if (List.length records <? 5)%nat then Ok None
        else
          let closes := map (fun x => _num x ["收盘"] (Fin 0)) records in
          let opens := map (fun x => _num x ["开盘"] (Fin 0)) records in
          let volumes := map (fun x => _num x ["成交量"] (Fin 0)) records in
          if negb (trend_up closes 3) then Ok None
          else
            let window := py_slice volumes (Some (-6)) (Some (-1)) in
            baseline <- py_div (py_sum window)
                               (of_nat (Nat.max (List.length window) 1)) ;;
            latest_volume <- py_index_back volumes 1 ;;
            let vol_ratio := Indicators.volume_ratio latest_volume baseline in
            if fle vol_ratio (Fin 1.5) then Ok None
            else
              close1 <- py_index_back closes 1 ;;
              close2 <- py_index_back closes 2 ;;
              open1 <- py_index_back opens 1 ;;
              last_day_change <-
                (if truthy close2
                 then q <- py_div (close1 - close2)%F close2 ;; Ok (q * Fin 100)%F
                 else Ok (Fin 0)) ;;
              let high_volume_bearish :=
                fgt open1 close1
                && flt last_day_change (Fin (-2))
                && fgt vol_ratio (Fin 2.2) in
              if high_volume_bearish then Ok None
              else Ok (Some {| code := code;
                               name := name;
                               change_pct := change_pct;
                               volume_ratio := vol_ratio;
                               strength_rank := 0;
                               sector := sector |})
    end.

(** [for row in universe: ...candidates.append(...)]. *)
Fixpoint deep_filter_all (w : Upstream) (allowed : option (list string))
         (universe : list row) : Py.t (list StockCandidate) :=
  match universe with
  | [] => Ok []
  | r :: rest =>
      kept <- deep_filter w allowed r ;;
      others <- deep_filter_all w allowed rest ;;
      Ok (match kept with Some c => c :: others | None => others end)
  end.

(** [(a.change_pct, a.volume_ratio) > (b.change_pct, b.volume_ratio)]. *)
Definition candidate_gt (a b : StockCandidate) : bool :=
  if feqb (change_pct a) (change_pct b)
  then fgt (volume_ratio a) (volume_ratio b)
  else fgt (change_pct a) (change_pct b).

Definition with_rank (entry : Z * StockCandidate) : StockCandidate :=
  let '(idx, item) := entry in
  to_dict {| code := code item;
             name := name item;
             change_pct := change_pct item;
             volume_ratio := volume_ratio item;
             strength_rank := idx;
             sector := sector item |}.

(** Lines 408-417. *)
Definition universe_of (allowed : option (list string)) (rows : list row) : list row :=
  let pre_filtered :=
    filter (fun r => fgt (_num r ["涨跌幅"] (Fin 0)) (Fin 4.5)
                     && is_allowed allowed (_str r ["代码"; "股票代码"] ""))
           rows in
  let pre_filtered :=
    sort_desc (fun y x => fgt (_num y ["涨跌幅"] (Fin 0)) (_num x ["涨跌幅"] (Fin 0)))
              pre_filtered in
  py_slice pre_filtered None (Some 120).

Definition scan_strong_stocks (w : Upstream) (sectors : option (list string))
           (top_n : Z) : Py.t (list StockCandidate) :=
  if negb (runtime_present w) then Ok (_fallback_scan_strong_stocks sectors top_n)
  else
    match stock_zh_a_spot_em w with
    | Raises => Ok (_fallback_scan_strong_stocks sectors top_n)
    | Returns spot_df =>
        match _to_records w spot_df with
        | [] => Ok (_fallback_scan_strong_stocks sectors top_n)
        | rows =>
            let allowed := allowed_codes w sectors in
            let universe := universe_of allowed rows in
            candidates <- deep_filter_all w allowed universe ;;
            let candidates := sort_desc candidate_gt candidates in
            Ok (map with_rank (enumerate 1 (py_slice candidates None (Some top_n))))
        end
    end.

End MarketData.

(* ================================================================== *)
(** * tools/money_flow.py *)

Module MoneyFlow.

(** The module repeats [_to_records], [_normalize_number] and
    [_num_unit] of market_data.py word for word. *)
Definition _to_records := MarketData._to_records.
Definition _normalize_number := MarketData._normalize_number.
Definition _num_unit := MarketData._num_unit.

Record CapitalFlow : Type := {
  symbol : string;
  main_flow : Z;
  northbound_net : Z;
  northbound_inflow_days : Z;
  flow_trend : string;
  strength_rank : Z;
  data_source : string
}.

(** [if symbol] holds for a symbol that is given and not empty. *)
Definition given (symbol : option string) : option string :=
  match symbol with
  | Some "" => None
  | _ => symbol
  end.

(** [symbol or "market"]. *)
Definition symbol_or_market (symbol : option string) : string :=
  match given symbol with
  | Some s => s
  | None => "market"
  end.

Definition _fallback_capital_flow (symbol : option string) : CapitalFlow :=
  {| symbol := symbol_or_market symbol;
     main_flow := 180000000;
     northbound_net := 530000000;
     northbound_inflow_days := 3;
     flow_trend := "3-day-inflow";
     strength_rank := 12;
     data_source := "fallback" |}.

(** The loop of [_count_consecutive_inflow] over [reversed(values)]. *)
Fixpoint count_inflow (newest_first : list pyfloat) : Z :=
  match newest_first with
  | item :: rest => if fgt item (Fin 0) then 1 + count_inflow rest else 0
  | [] => 0
  end.

Definition _count_consecutive_inflow (values : list pyfloat) : Z :=
  count_inflow (rev values).

(** The non-zero values of one answer; [] when the call raises. *)
Definition series_of (w : Upstream) (keys : list string) (r : response)
  : list pyfloat :=
  match r with
  | Returns f =>
      filter (fun x => fne x (Fin 0))
             (map (fun x => _num_unit x keys (Fin 0)) (_to_records w f))
  | Raises => []
  end.

(** The loop over the three historical labels, lines 119-134. *)
Fixpoint hist_series (w : Upstream) (endpoint : string -> response)
         (symbols : list string) : list pyfloat :=
  match symbols with
  | [] => []
  | symbol :: rest =>
      match series_of w ["当日成交净买额"; "当日净流入"; "净买额"; "净流入"] (endpoint symbol) with
      | [] => hist_series w endpoint rest
      | vals => py_slice vals (Some (-20)) None
      end
  end.

Definition _load_northbound_series (w : Upstream) : list pyfloat :=
  if negb (runtime_present w) then []
  else
    match series_of w ["value"; "净流入"; "当日净流入"; "净买额"]
                    (stock_hsgt_north_net_flow_in_em w) with
    | [] =>
        match stock_hsgt_hist_em w with
        | Some endpoint => hist_series w endpoint ["北向资金"; "沪股通"; "深股通"]
        | None => []
        end
    | vals => py_slice vals (Some (-20)) None
    end.

(** [str(row.get("股票代码", row.get("代码", ""))).strip()]. *)
Definition rank_code (r : row) : string :=
  let v := match row_get "股票代码" r with
           | Some v => v
           | None => match row_get "代码" r with
                     | Some v => v
                     | None => VStr ""
                     end
           end in
  PyStr.strip (py_str v).

(** The first row of a ranked snapshot whose code is [symbol]. *)
Definition matching_row (symbol : string) (rows : list row) : option row :=
  find (fun r => String.eqb (rank_code r) symbol) rows.

(** The loop over the three windows, lines 161-183. *)
Fixpoint rank_flow (w : Upstream) (endpoint : string -> response)
         (symbol : string) (indicators : list string) : pyfloat :=
  match indicators with
  | [] => Fin 0
  | indicator :: rest =>
      match endpoint indicator with
      | Returns rank_df =>
          match matching_row symbol (_to_records w rank_df) with
          | Some r => _num_unit r ["今日主力净流入-净额"; "主力净流入-净额"; "主力净额"] (Fin 0)
          | None => rank_flow w endpoint symbol rest
          end
      | Raises => rank_flow w endpoint symbol rest
      end
  end.

Definition _load_symbol_main_flow (w : Upstream) (symbol : string) : pyfloat :=
  if negb (runtime_present w) then Fin 0
  else
    let ranked :=
      match stock_individual_fund_flow_rank w with
      | Some endpoint => rank_flow w endpoint symbol ["今日"; "5日"; "10日"]
      | None => Fin 0
      end in
    match stock_individual_fund_flow w symbol with
    | Returns hist =>
        match rev (_to_records w hist) with
        | latest :: _ =>
            _num_unit latest ["主力净流入-净额"; "主力净额"; "主力净流入"; "主力净流入净额"] (Fin 0)
        | [] => ranked
        end
    | Raises => ranked
    end.

Definition strength_tier (main_flow : pyfloat) : Z :=
  if fge main_flow (Fin 300000000) then 5
  else if fge main_flow (Fin 150000000) then 12
  else if fge main_flow (Fin 0) then 30
  else 70.

(** The value of the local [main_flow] of line 207. *)
Definition main_flow_of (w : Upstream) (symbol : option string)
           (northbound_net : pyfloat) : pyfloat :=
  match given symbol with
  | Some s => _load_symbol_main_flow w s
  | None => (northbound_net * Fin 0.55)%F
  end.

Definition analyze_capital_flow (w : Upstream) (symbol : option string)
  : Py.t CapitalFlow :=
  if negb (runtime_present w) then Ok (_fallback_capital_flow symbol)
  else
    let north_vals := _load_northbound_series w in
    match north_vals with
    | [] => Ok (_fallback_capital_flow symbol)
    | _ =>
        northbound_net <- py_index_back north_vals 1 ;;
        let northbound_inflow_days := _count_consecutive_inflow north_vals in
        let main_flow := main_flow_of w symbol northbound_net in
        let strength_rank := strength_tier main_flow in
        let trend :=
          if 0 <? northbound_inflow_days
          then PyStr.string_of_Z northbound_inflow_days ++ "-day-inflow"
          else "outflow" in
        main_flow_int <- py_int main_flow ;;
        northbound_net_int <- py_int northbound_net ;;
        Ok {| symbol := symbol_or_market symbol;
              main_flow := main_flow_int;
              northbound_net := northbound_net_int;
              northbound_inflow_days := northbound_inflow_days;
              flow_trend := trend;
              strength_rank := strength_rank;
              data_source := "akshare-live" |}
    end.

End MoneyFlow.

(* ================================================================== *)
(** * tools/fusion_engine.py *)

Module FusionEngine.
Import Indicators.

(** The verdict of the risk gate.  tools/risk_control.py is not among
    the sources: [short_term_risk_control] is the external collaborator
    of section 6 of the specification and is a parameter of the engine. *)
Record Risk : Type := {
  market_filter : bool;
  max_position : pyfloat;
  stop_loss : pyfloat;
  take_profit : pyfloat;
  risk_note : string
}.

Inductive Signal : Type := SHORT_BUY | WATCHLIST | NO_TRADE.

Definition _calc_sector_score (top_sectors : list MarketData.SectorStrength)
  : Py.t pyfloat :=
  match top_sectors with
  | [] => Ok (Fin 0)
  | _ =>
      let top3 := py_slice top_sectors None (Some 3) in
      py_div (py_sum (map MarketData.strength top3)) (of_nat (List.length top3))
  end.

Definition _calc_stock_volume_score (stocks : list MarketData.StockCandidate)
  : pyfloat :=
  match stocks with
  | [] => Fin 0
  | top :: _ =>
      let ratio := MarketData.volume_ratio top in
      let change := MarketData.change_pct top in
      clamp (ratio / Fin 3 * Fin 60 + change / Fin 10 * Fin 40)%F (Fin 0) (Fin 100)
  end.

Definition _calc_capital_score (capital : MoneyFlow.CapitalFlow) : pyfloat :=
  let main_flow := of_Z (MoneyFlow.main_flow capital) in
  let inflow_days := of_Z (MoneyFlow.northbound_inflow_days capital) in
  let score :=
    (clamp (main_flow / Fin 300000000 * Fin 70) (Fin 0) (Fin 70)
     + clamp (inflow_days / Fin 5 * Fin 30) (Fin 0) (Fin 30))%F in
  clamp score (Fin 0) (Fin 100).

Definition _calc_technical_score (stocks : list MarketData.StockCandidate)
  : pyfloat :=
  match stocks with
  | [] => Fin 0
  | top :: _ =>
      let ratio := MarketData.volume_ratio top in
      clamp (Fin 55 + ratio * Fin 10)%F (Fin 0) (Fin 100)
  end.

(** The weighted sum of lines 69-76. *)
Definition composite (sentiment_score sector_score stock_score capital_score
                      technical_score : pyfloat) : pyfloat :=
  let score :=
    (sentiment_score * Fin 0.25
     + sector_score * Fin 0.25
     + stock_score * Fin 0.20
     + capital_score * Fin 0.20
     + technical_score * Fin 0.10)%F in
  py_round (clamp score (Fin 0) (Fin 100)) 2.

(** Lines 78-89: the signal, the confidence before the final rounding
    and the holding period. *)
Definition decide (score : pyfloat) (market_filter : bool)
  : Signal * pyfloat * string :=
  if fge score (Fin 75) && market_filter then
    (SHORT_BUY, clamp (score / Fin 100 * Fin 0.9)%F (Fin 0) (Fin 0.95), "1-3")
  else if fge score (Fin 60) && market_filter then
    (WATCHLIST, clamp (score / Fin 100 * Fin 0.75)%F (Fin 0) (Fin 0.85), "1-2")
  else
    (NO_TRADE, clamp (score / Fin 100 * Fin 0.6)%F (Fin 0) (Fin 0.7), "0").

Record FactorBreakdown : Type := {
  fb_market_sentiment : pyfloat;
  fb_sector_strength : pyfloat;
  fb_stock_volume_strength : pyfloat;
  fb_capital_inflow : pyfloat;
  fb_technical_structure : pyfloat
}.

Record FusedSignal : Type := {
  score : pyfloat;
  signal : Signal;
  holding_days : string;
  confidence : pyfloat;
  risk_control : Risk;
  market_sentiment : MarketData.MarketSentiment;
  top_sectors : list MarketData.SectorStrength;
  candidates : list MarketData.StockCandidate;
  capital_flow : MoneyFlow.CapitalFlow;
  factor_breakdown : FactorBreakdown
}.

Definition short_term_signal_engine
           (short_term_risk_control : pyfloat -> Risk) (w : Upstream)
  : Py.t FusedSignal :=
  sentiment <- MarketData.get_market_sentiment w ;;
  sector_info <- MarketData.get_sector_rotation w 5 ;;
  let sector_names := map MarketData.sector_name (MarketData.top_sectors sector_info) in
  stocks <- MarketData.scan_strong_stocks w (Some sector_names) 5 ;;
  let target_symbol :=
    match stocks with
    | top :: _ => Some (MarketData.code top)
    | [] => None
    end in
  capital <- MoneyFlow.analyze_capital_flow w target_symbol ;;
  let risk := short_term_risk_control (MarketData.market_sentiment_score sentiment) in
  let sentiment_score := MarketData.market_sentiment_score sentiment in
  sector_score <- _calc_sector_score (MarketData.top_sectors sector_info) ;;
  let stock_score := _calc_stock_volume_score stocks in
  let capital_score := _calc_capital_score capital in
  let technical_score := _calc_technical_score stocks in
  let score := composite sentiment_score sector_score stock_score
                         capital_score technical_score in
  let '(signal, confidence, holding_days) := decide score (market_filter risk) in
  Ok {| score := score;
        signal := signal;
        holding_days := holding_days;
        confidence := py_round confidence 2;
        risk_control := risk;
        market_sentiment := sentiment;
        top_sectors := MarketData.top_sectors sector_info;
        candidates := stocks;
        capital_flow := capital;
        factor_breakdown :=
          {| fb_market_sentiment := py_round sentiment_score 2;
             fb_sector_strength := py_round sector_score 2;
             fb_stock_volume_strength := py_round stock_score 2;
             fb_capital_inflow := py_round capital_score 2;
             fb_technical_structure := py_round technical_score 2 |} |}.

End FusionEngine.

(* ================================================================== *)
(** * Properties of the numeric layer *)

Section Numeric.
Import Indicators.
Local Open Scope Q_scope.

Lemma Qltb_true (a b : Q) : Qltb a b = true <-> a < b.
Proof.
  unfold Qltb. rewrite negb_true_iff.
  split; intro H.
  - apply Qnot_le_lt. intro L. apply Qle_bool_iff in L. congruence.
  - destruct (Qle_bool b a) eqn:E; [|reflexivity].
    apply Qle_bool_iff in E. exfalso. apply (Qlt_not_le _ _ H E).
Qed.

Lemma Qltb_false (a b : Q) : Qltb a b = false <-> b <= a.
Proof.
  unfold Qltb. rewrite negb_false_iff. apply Qle_bool_iff.
Qed.

Lemma within_weaken (lo hi lo' hi' : Q) (x : pyfloat) :
  lo' <= lo -> hi <= hi' -> within lo hi x -> within lo' hi' x.
Proof.
  destruct x; simpl; try tauto. intros ? ? [? ?]. split; lra.
Qed.

Lemma within_fin (lo hi : Q) (x : pyfloat) :
  within lo hi x -> exists q, x = Fin q /\ lo <= q /\ q <= hi.
Proof.
  destruct x; simpl; try tauto. intros H. exists q. auto.
Qed.

(** Whatever [x] is, [clamp x lo hi] is a number between the bounds. *)
Lemma clamp_within (x : pyfloat) (lo hi : Q) :
  lo <= hi -> within lo hi (clamp x (Fin lo) (Fin hi)).
Proof.
  intro Hle. unfold clamp, py_min, py_max, fgt.
  destruct x as [q| | |]; cbn [flt].
  - destruct (Qltb q hi) eqn:E1; cbn [flt].
    + destruct (Qltb lo q) eqn:E2; simpl.
      * apply Qltb_true in E1, E2. split; lra.
      * split; lra.
    + destruct (Qltb lo hi) eqn:E2; simpl; split; lra.
  - destruct (Qltb lo hi) eqn:E2; simpl; split; lra.
  - simpl. split; lra.
  - destruct (Qltb lo hi) eqn:E2; simpl; split; lra.
Qed.

Lemma within_add (a b c d : Q) (x y : pyfloat) :
  within a b x -> within c d y -> within (a + c) (b + d) (x + y)%F.
Proof.
  destruct x, y; simpl; try tauto. intros [? ?] [? ?]. split; lra.
Qed.

(** ** Rounding *)

Lemma round_half_even_bounds (q : Q) :
  inject_Z (Qfloor q) <= inject_Z (round_half_even q)
  /\ inject_Z (round_half_even q) <= inject_Z (Qfloor q) + 1.
Proof.
  unfold round_half_even.
  repeat match goal with |- context [if ?c then _ else _] => destruct c end;
    rewrite ?inject_Z_plus; change (inject_Z 1) with 1; split; lra.
Qed.

Lemma round_half_even_up (q : Q) :
  round_half_even q = (Qfloor q + 1)%Z -> inject_Z (Qfloor q) < q.
Proof.
  unfold round_half_even.
  destruct (Qltb (q - inject_Z (Qfloor q)) (1 # 2)) eqn:E1.
  - intro H. exfalso. lia.
  - intros _. apply Qltb_false in E1. lra.
Qed.

Lemma inject_Z_lt_inv (a b : Z) : inject_Z a < inject_Z b -> (a < b)%Z.
Proof. rewrite <- Zlt_Qlt. auto. Qed.

Lemma inject_Z_le_inv (a b : Z) : inject_Z a <= inject_Z b -> (a <= b)%Z.
Proof. rewrite <- Zle_Qle. auto. Qed.

(** Rounding to an integer stays between integer bounds. *)
Lemma round_half_even_within (lo hi : Z) (q : Q) :
  inject_Z lo <= q -> q <= inject_Z hi ->
  (lo <= round_half_even q <= hi)%Z.
Proof.
  intros Hlo Hhi.
  pose proof (Qfloor_le q) as Hf.
  pose proof (Qlt_floor q) as Hc.
  pose proof (round_half_even_bounds q) as [B1 B2].
  assert (lo <= Qfloor q)%Z as L.
  { rewrite <- (Qfloor_Z lo). apply Qfloor_resp_le. exact Hlo. }
  split.
  - apply inject_Z_le_inv in B1. lia.
  - assert (round_half_even q <= Qfloor q + 1)%Z as U.
    { apply inject_Z_le_inv. rewrite inject_Z_plus. exact B2. }
    destruct (Z.eq_dec (round_half_even q) (Qfloor q + 1)) as [E|E].
    + apply round_half_even_up in E.
      assert (Qfloor q < hi)%Z by (apply inject_Z_lt_inv; lra). lia.
    + assert (Qfloor q <= hi)%Z by (apply inject_Z_le_inv; lra). lia.
Qed.

(** Rounding to an integer is monotone. *)
Lemma round_half_even_mono (p q : Q) :
  p <= q -> (round_half_even p <= round_half_even q)%Z.
Proof.
  intro Hpq.
  pose proof (Qfloor_resp_le _ _ Hpq) as Hfl.
  pose proof (round_half_even_bounds p) as [_ P2].
  pose proof (round_half_even_bounds q) as [Q1 _].
  destruct (Z.eq_dec (Qfloor p) (Qfloor q)) as [E|E].
  - unfold round_half_even. rewrite E.
    destruct (Qltb (p - inject_Z (Qfloor q)) (1 # 2)) eqn:A1.
    + repeat match goal with |- context [if ?c then _ else _] => destruct c end; lia.
    + apply Qltb_false in A1.
      destruct (Qltb (q - inject_Z (Qfloor q)) (1 # 2)) eqn:B1.
      { apply Qltb_true in B1. exfalso. lra. }
      destruct (Qltb (1 # 2) (p - inject_Z (Qfloor q))) eqn:A2.
      * apply Qltb_true in A2.
        assert (Qltb (1 # 2) (q - inject_Z (Qfloor q)) = true) as ->
            by (apply Qltb_true; lra).
        lia.
      * destruct (Qltb (1 # 2) (q - inject_Z (Qfloor q)));
          destruct (Z.even (Qfloor q)); lia.
  - assert (Qfloor p + 1 <= Qfloor q)%Z as S by lia.
    apply inject_Z_le_inv.
    apply Qle_trans with (inject_Z (Qfloor p) + 1); [exact P2|].
    apply Qle_trans with (inject_Z (Qfloor q)); [|exact Q1].
    rewrite Zle_Qle, inject_Z_plus in S. exact S.
Qed.

Lemma scale_pos (n : nat) : 0 < inject_Z (10 ^ Z.of_nat n).
Proof.
  change 0 with (inject_Z 0). rewrite <- Zlt_Qlt.
  apply Z.pow_pos_nonneg; lia.
Qed.

Lemma div_le_mul (a q s : Q) : 0 < s -> a / s <= q -> a <= q * s.
Proof.
  intros Hs H. assert (a == a / s * s) as E by (field; lra).
  rewrite E. apply Qmult_le_compat_r; lra.
Qed.

Lemma le_div_mul (a q s : Q) : 0 < s -> q <= a / s -> q * s <= a.
Proof.
  intros Hs H. assert (a == a / s * s) as E by (field; lra).
  rewrite E. apply Qmult_le_compat_r; lra.
Qed.

(** [round(x, n)] keeps a value between bounds that are multiples of
    [10^-n]. *)
Lemma py_round_within_grid (lo hi : Z) (x : pyfloat) (n : nat) :
  let s := inject_Z (10 ^ Z.of_nat n) in
  within (inject_Z lo / s) (inject_Z hi / s) x ->
  within (inject_Z lo / s) (inject_Z hi / s) (py_round x n).
Proof.
  intro s. destruct x as [q| | |]; simpl; try tauto. intros [Hlo Hhi].
  pose proof (scale_pos n) as Hs. fold s in Hs. fold s.
  assert (inject_Z lo <= q * s) as A.
  { apply div_le_mul; assumption. }
  assert (q * s <= inject_Z hi) as B.
  { apply le_div_mul; assumption. }
  pose proof (round_half_even_within _ _ _ A B) as [R1 R2].
  rewrite Zle_Qle in R1. rewrite Zle_Qle in R2.
  split.
  - apply Qle_shift_div_l; [exact Hs|].
    assert (inject_Z lo / s * s == inject_Z lo) as -> by (field; lra).
    exact R1.
  - apply Qle_shift_div_r; [exact Hs|].
    assert (inject_Z hi / s * s == inject_Z hi) as -> by (field; lra).
    exact R2.
Qed.

(** [round(x, 2)] keeps a score between 0 and 100. *)
Lemma py_round_score (x : pyfloat) :
  within 0 100 x -> within 0 100 (py_round x 2).
Proof.
  intro H.
  apply (within_weaken (inject_Z 0 / inject_Z (10 ^ Z.of_nat 2))
                       (inject_Z 10000 / inject_Z (10 ^ Z.of_nat 2)));
    [vm_compute; discriminate|vm_compute; discriminate|].
  apply py_round_within_grid.
  revert H. apply within_weaken; vm_compute; discriminate.
Qed.

(** [round(x, n)] is monotone on numbers. *)
Lemma py_round_mono (a b : Q) (n : nat) :
  a <= b -> fle (py_round (Fin a) n) (py_round (Fin b) n) = true.
Proof.
  intro H. pose proof (scale_pos n) as Hs. cbn [py_round].
  set (s := inject_Z (10 ^ Z.of_nat n)) in *.
  assert (round_half_even (a * s) <= round_half_even (b * s))%Z as M
      by (apply round_half_even_mono; nra).
  rewrite Zle_Qle in M.
  set (ra := inject_Z (round_half_even (a * s))) in *.
  set (rb := inject_Z (round_half_even (b * s))) in *.
  assert (ra / s <= rb / s) as L.
  { apply Qle_shift_div_l; [exact Hs|].
    assert (ra / s * s == ra) as -> by (field; lra). exact M. }
  unfold fle. cbn [flt feqb].
  destruct (Qltb (ra / s) (rb / s)) eqn:E; [reflexivity|].
  apply Qltb_false in E. cbn [orb]. apply Qeq_bool_iff. lra.
Qed.


End Numeric.

(* ================================================================== *)
(** * Properties of the error monad *)

Lemma bind_ok {A B} (m : Py.t A) (k : A -> Py.t B) (b : B) :
  Py.bind m k = Ok b -> exists a, m = Ok a /\ k a = Ok b.
Proof. destruct m as [a|e]; simpl; [eauto|discriminate]. Qed.



(** Splits a hypothesis [x <- m ;; k = Ok b] into its two steps. *)
Ltac py_inv H :=
  let a := fresh "v" in
  let H1 := fresh "Hstep" in
  apply bind_ok in H; destruct H as (a & H1 & H).

Lemma mapM_ok_Forall2 {A B} (f : A -> Py.t B) (xs : list A) (ys : list B) :
  Py.mapM f xs = Ok ys -> Forall2 (fun x y => f x = Ok y) xs ys.
Proof.
  revert ys. induction xs as [|x xs IH]; simpl; intros ys H.
  - inversion H. constructor.
  - py_inv H. py_inv H. inversion H; subst. constructor; auto.
Qed.

Lemma mapM_ok_Forall {A B} (f : A -> Py.t B) (P : B -> Prop)
      (xs : list A) (ys : list B) :
  Py.mapM f xs = Ok ys -> (forall x y, f x = Ok y -> P y) -> Forall P ys.
Proof.
  intros H HP. apply mapM_ok_Forall2 in H.
  induction H; constructor; eauto.
Qed.


(* ================================================================== *)
(** * The fusion engine: signal, confidence *)

Section Fusion.
Import Indicators FusionEngine.
Local Open Scope Q_scope.

Variable short_term_risk_control : pyfloat -> Risk.

(** What a returned payload is made of. *)
Lemma engine_payload (w : Upstream) (p : FusedSignal) :
  short_term_signal_engine short_term_risk_control w = Ok p ->
  exists sector_info sector_score,
    MarketData.get_market_sentiment w = Ok (market_sentiment p)
    /\ MarketData.get_sector_rotation w 5 = Ok sector_info
    /\ top_sectors p = MarketData.top_sectors sector_info
    /\ MarketData.scan_strong_stocks w
         (Some (map MarketData.sector_name (top_sectors p))) 5 = Ok (candidates p)
    /\ _calc_sector_score (top_sectors p) = Ok sector_score
    /\ risk_control p
       = short_term_risk_control
           (MarketData.market_sentiment_score (market_sentiment p))
    /\ score p
       = composite (MarketData.market_sentiment_score (market_sentiment p))
                   sector_score
                   (_calc_stock_volume_score (candidates p))
                   (_calc_capital_score (capital_flow p))
                   (_calc_technical_score (candidates p))
    /\ signal p = fst (fst (decide (score p) (market_filter (risk_control p))))
    /\ confidence p
       = py_round (snd (fst (decide (score p) (market_filter (risk_control p))))) 2
    /\ holding_days p = snd (decide (score p) (market_filter (risk_control p))).
Proof.
  unfold short_term_signal_engine. intro H.
  py_inv H. py_inv H. py_inv H. py_inv H. py_inv H.
  match type of H with
  | context [decide ?s ?m] => destruct (decide s m) as [[sg cf] hd] eqn:D
  end.
  inversion H; subst p; clear H. cbn [market_sentiment top_sectors candidates
    capital_flow risk_control score signal confidence holding_days].
  rewrite D. cbn [fst snd].
  exists v0, v3. repeat split; assumption.
Qed.



End Fusion.

(* ================================================================== *)
(** * Concrete upstream snapshots *)

(** No endpoint answers: every call raises and the optional endpoints are
    missing.  [present] tells whether akshare and pandas were imported. *)
Definition silent (present : bool) (day : Z) : Upstream :=
  {| ak_present := present;
     pd_present := present;
     today := day;
     stock_zt_pool_em := fun _ => Raises;
     stock_zt_pool_dtgc_em := fun _ => Raises;
     stock_zt_pool_zbgc_em := None;
     stock_zh_a_spot_em := Raises;
     stock_board_industry_name_em := Raises;
     stock_board_concept_name_em := None;
     stock_board_industry_cons_em := None;
     stock_board_concept_cons_em := None;
     stock_zh_a_hist := fun _ => Raises;
     stock_hsgt_north_net_flow_in_em := Raises;
     stock_hsgt_hist_em := None;
     stock_individual_fund_flow := fun _ => Raises;
     stock_individual_fund_flow_rank := None |}.

(** Wednesday 2025-11-05. *)
Definition a_wednesday : Z := 739560.

(** akshare is not installed. *)
Definition offline : Upstream := silent false a_wednesday.

(** Only the capital-flow endpoints answer: five inflow days, and a
    fund-flow history for the first fallback candidate. *)
Definition capital_only (net main : pyval) : Upstream :=
  {| ak_present := true;
     pd_present := true;
     today := a_wednesday;
     stock_zt_pool_em := fun _ => Raises;
     stock_zt_pool_dtgc_em := fun _ => Raises;
     stock_zt_pool_zbgc_em := None;
     stock_zh_a_spot_em := Raises;
     stock_board_industry_name_em := Raises;
     stock_board_concept_name_em := None;
     stock_board_industry_cons_em := None;
     stock_board_concept_cons_em := None;
     stock_zh_a_hist := fun _ => Raises;
     stock_hsgt_north_net_flow_in_em :=
       Returns (DataFrame [ [("value", net)]; [("value", net)]; [("value", net)];
                            [("value", net)]; [("value", net)] ]);
     stock_hsgt_hist_em := None;
     stock_individual_fund_flow :=
       fun symbol => if String.eqb symbol "300001"
                     then Returns (DataFrame [ [("主力净流入-净额", main)] ])
                     else Raises;
     stock_individual_fund_flow_rank := None |}.

(** Scenario C of the specification: a run whose composite is 75.0. *)
Definition scenario_c : Upstream := capital_only (VInt 100000000) (VInt 283821428).

(** The northbound series loads; the fund-flow history of every symbol
    is an empty frame and the ranked snapshots list another stock. *)
Definition unmatched_flow : Upstream :=
  {| ak_present := true;
     pd_present := true;
     today := a_wednesday;
     stock_zt_pool_em := fun _ => Raises;
     stock_zt_pool_dtgc_em := fun _ => Raises;
     stock_zt_pool_zbgc_em := None;
     stock_zh_a_spot_em := Raises;
     stock_board_industry_name_em := Raises;
     stock_board_concept_name_em := None;
     stock_board_industry_cons_em := None;
     stock_board_concept_cons_em := None;
     stock_zh_a_hist := fun _ => Raises;
     stock_hsgt_north_net_flow_in_em :=
       Returns (DataFrame [ [("value", VStr "-3.2亿")]; [("value", VStr "12.5亿")] ]);
     stock_hsgt_hist_em := None;
     stock_individual_fund_flow := fun _ => Returns (DataFrame []);
     stock_individual_fund_flow_rank :=
       Some (fun indicator =>
               if String.eqb indicator "5日" then Raises
               else Returns (DataFrame [ [("代码", VStr "600000");
                                          ("主力净流入-净额", VStr "9.9亿")] ])) |}.

Definition gate (filter : bool) (sentiment_score : pyfloat) : FusionEngine.Risk :=
  {| FusionEngine.market_filter := filter;
     FusionEngine.max_position := Fin 0.3;
     FusionEngine.stop_loss := Fin (-6);
     FusionEngine.take_profit := Fin 12;
     FusionEngine.risk_note := "" |}.

(* ================================================================== *)
(** * Claims about the fusion engine *)

Section FusionClaims.
Import Indicators FusionEngine.
Local Open Scope Q_scope.



End FusionClaims.

(* ================================================================== *)
(** * Lists: sorting and slicing *)

Lemma insert_desc_perm {A} (gt : A -> A -> bool) (x : A) (l : list A) :
  Permutation (insert_desc gt x l) (x :: l).
Proof.
  induction l as [|y l IH]; simpl; [reflexivity|].
  destruct (gt y x); [|reflexivity].
  rewrite IH. apply perm_swap.
Qed.

Lemma sort_desc_perm {A} (gt : A -> A -> bool) (l : list A) :
  Permutation (sort_desc gt l) l.
Proof.
  induction l as [|x l IH]; simpl; [reflexivity|].
  rewrite insert_desc_perm. constructor. exact IH.
Qed.

Lemma sort_desc_In {A} (gt : A -> A -> bool) (l : list A) (x : A) :
  In x (sort_desc gt l) <-> In x l.
Proof.
  split; apply Permutation_in; [|symmetry]; apply sort_desc_perm.
Qed.

Lemma In_firstn {A} (n : nat) (l : list A) (x : A) : In x (firstn n l) -> In x l.
Proof.
  intro H. rewrite <- (firstn_skipn n l). apply in_or_app. left. exact H.
Qed.

Lemma In_skipn {A} (n : nat) (l : list A) (x : A) : In x (skipn n l) -> In x l.
Proof.
  intro H. rewrite <- (firstn_skipn n l). apply in_or_app. right. exact H.
Qed.

Lemma py_slice_In {A} (l : list A) (start stop : option Z) (x : A) :
  In x (py_slice l start stop) -> In x l.
Proof.
  unfold py_slice. intro H. apply In_firstn in H. apply In_skipn in H. exact H.
Qed.

Lemma py_slice_Forall {A} (P : A -> Prop) (l : list A) (start stop : option Z) :
  Forall P l -> Forall P (py_slice l start stop).
Proof.
  rewrite !Forall_forall. intros H x Hx. apply H. eapply py_slice_In, Hx.
Qed.

(** [xs[:n]] for [n >= 0] is the first [n] elements. *)
Lemma py_slice_prefix {A} (l : list A) (n : Z) :
  0 <= n -> py_slice l None (Some n) = firstn (Z.to_nat n) l.
Proof.
  intro Hn. unfold py_slice, clip. cbn [skipn].
  assert ((n <? 0) = false) as -> by lia.
  rewrite Nat.sub_0_r.
  destruct (Z.le_ge_cases n (Z.of_nat (List.length l))) as [L|G].
  - rewrite Z.min_l by lia. reflexivity.
  - rewrite Z.min_r by lia. rewrite Nat2Z.id.
    rewrite !firstn_all2; [reflexivity|lia|lia].
Qed.

Lemma py_slice_prefix_length {A} (l : list A) (n : Z) :
  0 <= n -> Z.of_nat (List.length (py_slice l None (Some n))) <= n.
Proof.
  intro Hn. rewrite py_slice_prefix by exact Hn.
  pose proof (firstn_le_length (Z.to_nat n) l). rewrite length_firstn. lia.
Qed.

(* ================================================================== *)
(** * Score bounds *)

Section Scores.
Import Indicators.
Local Open Scope Q_scope.

Lemma sentiment_expr_within (lu ld mh : Z) (br : pyfloat) :
  within 0 100 (MarketData.sentiment_expr lu ld mh br).
Proof.
  unfold MarketData.sentiment_expr.
  apply (within_weaken (0 + 0 + 0 + 0) (45 + 20 + 20 + 15));
    [vm_compute; discriminate|vm_compute; discriminate|].
  repeat apply within_add; apply clamp_within; vm_compute; discriminate.
Qed.

Lemma sentiment_score_within (w : Upstream) (s : MarketData.MarketSentiment) :
  MarketData.get_market_sentiment w = Ok s ->
  within 0 100 (MarketData.market_sentiment_score s).
Proof.
  unfold MarketData.get_market_sentiment.
  destruct (negb (runtime_present w)).
  - intro H. inversion H. apply py_round_score, sentiment_expr_within.
  - destruct (snd _) as [[d zt]|].
    + intro H. py_inv H. py_inv H. py_inv H. inversion H.
      apply py_round_score, sentiment_expr_within.
    + intro H. inversion H. apply py_round_score, sentiment_expr_within.
Qed.

Lemma sector_entry_strength (m : pyfloat) (r : row) (s : MarketData.SectorStrength) :
  MarketData.sector_entry m r = Ok s -> within 0 100 (MarketData.strength s).
Proof.
  unfold MarketData.sector_entry. intro H.
  py_inv H. py_inv H. py_inv H. py_inv H. py_inv H. inversion H.
  cbn [MarketData.strength]. apply py_round_score.
  apply (within_weaken (0 + 0 + 0) (45 + 25 + 30));
    [vm_compute; discriminate|vm_compute; discriminate|].
  repeat apply within_add; apply clamp_within; vm_compute; discriminate.
Qed.

Lemma fallback_sector_strengths (w : Upstream) :
  Forall (fun s => within 0 100 (MarketData.strength s))
         (MarketData.top_sectors (MarketData._fallback_sector_rotation w)).
Proof.
  unfold MarketData._fallback_sector_rotation. cbn [MarketData.top_sectors].
  repeat (constructor; [vm_compute; split; discriminate|]). constructor.
Qed.

(** Every sector strength that [get_sector_rotation] returns is a score. *)
Lemma sector_strengths_within (w : Upstream) (top_n : Z) (r : MarketData.SectorRotation) :
  MarketData.get_sector_rotation w top_n = Ok r ->
  Forall (fun s => within 0 100 (MarketData.strength s)) (MarketData.top_sectors r).
Proof.
  unfold MarketData.get_sector_rotation.
  destruct (negb (runtime_present w)).
  { intro H. inversion H. apply fallback_sector_strengths. }
  match goal with |- context [map ?f ?l] => destruct (map f l) end.
  { intro H. inversion H. apply fallback_sector_strengths. }
  intro H. py_inv H. inversion H. cbn [MarketData.top_sectors].
  apply py_slice_Forall.
  rewrite Forall_forall. intros s Hs. apply sort_desc_In in Hs.
  revert s Hs. rewrite <- Forall_forall.
  eapply mapM_ok_Forall; [exact Hstep|].
  intros x y Hxy. eapply sector_entry_strength, Hxy.
Qed.

(** The accumulator of [sum] over scores. *)
Lemma sum_scores (xs : list pyfloat) (a : Q) :
  Forall (within 0 100) xs ->
  within a (a + 100 * inject_Z (Z.of_nat (List.length xs))) (fold_left fadd xs (Fin a)).
Proof.
  revert a. induction xs as [|x xs IH]; intros a H.
  - cbn [fold_left List.length within]. change (inject_Z (Z.of_nat 0)) with 0.
    split; lra.
  - inversion H as [|? ? Hx Hxs]; subst.
    destruct (within_fin _ _ _ Hx) as (q & -> & Hq1 & Hq2).
    cbn [fold_left fadd].
    specialize (IH (a + q) Hxs). revert IH. apply within_weaken; [lra|].
    cbn [List.length]. rewrite Nat2Z.inj_succ. unfold Z.succ.
    rewrite inject_Z_plus. change (inject_Z 1) with 1. lra.
Qed.

(** The mean of a non-empty list of scores is a score. *)
Lemma mean_scores (xs : list pyfloat) :
  xs <> [] -> Forall (within 0 100) xs ->
  exists m, py_div (py_sum xs) (of_nat (List.length xs)) = Ok m /\ within 0 100 m.
Proof.
  intros Hne H. pose proof (sum_scores xs 0 H) as S. fold (py_sum xs) in S.
  destruct (within_fin _ _ _ S) as (q & E & Hq1 & Hq2). rewrite E.
  set (n := inject_Z (Z.of_nat (List.length xs))) in *.
  assert (0 < n) as Hn.
  { unfold n. change 0 with (inject_Z 0). rewrite <- Zlt_Qlt.
    destruct xs; [congruence|simpl; lia]. }
  unfold py_div, of_nat, of_Z. fold n. cbn [feqb].
  destruct (Qeq_bool n 0) eqn:Z0.
  { apply Qeq_bool_eq in Z0. lra. }
  exists (Fin (q / n)). cbn [fdiv]. rewrite Z0. split; [reflexivity|].
  simpl. split.
  - apply Qle_shift_div_l; [exact Hn|lra].
  - apply Qle_shift_div_r; [exact Hn|lra].
Qed.

Lemma calc_sector_score_within (sectors : list MarketData.SectorStrength) :
  Forall (fun s => within 0 100 (MarketData.strength s)) sectors ->
  exists m, FusionEngine._calc_sector_score sectors = Ok m /\ within 0 100 m.
Proof.
  intro H. unfold FusionEngine._calc_sector_score.
  destruct sectors as [|s rest].
  - exists (Fin 0). split; [reflexivity|]. simpl. split; discriminate.
  - set (top3 := py_slice (s :: rest) None (Some 3%Z)).
    rewrite <- (length_map MarketData.strength top3).
    apply mean_scores.
    + unfold top3. rewrite py_slice_prefix by lia. simpl. discriminate.
    + apply Forall_map. apply py_slice_Forall. exact H.
Qed.





End Scores.


Section ScoreClaims.
Import Indicators FusionEngine.
Local Open Scope Q_scope.





(** On the closed interval [clamp] returns its argument. *)
Lemma clamp_closed (q lo hi : Q) :
  lo <= q -> q <= hi -> within q q (clamp (Fin q) (Fin lo) (Fin hi)).
Proof.
  intros H1 H2. unfold clamp, py_min, py_max, fgt. cbn [flt].
  destruct (Qltb q hi) eqn:E1; cbn [flt].
  - destruct (Qltb lo q) eqn:E2; cbn [within].
    + split; lra.
    + apply Qltb_false in E2. split; lra.
  - apply Qltb_false in E1.
    destruct (Qltb lo hi) eqn:E2; cbn [within]; [|apply Qltb_false in E2];
      split; lra.
Qed.


Lemma fle_fin (a b : Q) : fle (Fin a) (Fin b) = true <-> a <= b.
Proof.
  unfold fle. cbn [flt feqb]. rewrite orb_true_iff, Qltb_true, Qeq_bool_iff.
  split; [intros [?|?]; lra|].
  intro H. destruct (Qlt_le_dec a b); [left; assumption|right; lra].
Qed.







End ScoreClaims.

(* ================================================================== *)
(** * The normalizer *)

Section Normalizer.
Import MarketData.
Local Open Scope Q_scope.

Lemma finite_guard (x : pyfloat) : isfinite (if isfinite x then x else Fin 0) = true.
Proof. destruct x; reflexivity. Qed.

(** [_normalize_number] never returns a non-finite value. *)
Lemma normalize_number_finite (v : pyval) : isfinite (_normalize_number v) = true.
Proof.
  destruct v as [|s|z|f]; cbn [_normalize_number]; try reflexivity.
  - destruct (String.eqb s ""); [reflexivity|].
    destruct (_ || _); [reflexivity|].
    destruct (PyStr.endswith _ _); [|destruct (PyStr.endswith _ _)];
      (destruct (PyStr.float_of_string _) as [x|];
       [apply finite_guard|reflexivity]).
  - apply finite_guard.
Qed.

Lemma num_unit_finite (r : row) (keys : list string) (default : pyfloat) :
  isfinite default = true -> isfinite (_num_unit r keys default) = true.
Proof.
  intro Hd. induction keys as [|k keys IH]; cbn [_num_unit]; [exact Hd|].
  destruct (row_get k r) as [v|]; [|exact IH].
  destruct (_ || _); [apply normalize_number_finite|exact IH].
Qed.








Example num_unit_suffix :
  _num_unit [("成交额", VStr " 1,234.5万 ")] ["成交额"] (Fin 0)
  = Fin (12345 * (1 # 10) * 10000).
Proof. reflexivity. Qed.

Example num_unit_zero_literal :
  _num_unit [("a", VStr "0"); ("b", VStr "7")] ["a"; "b"] (Fin 1) = Fin (0 * 1 * 1).
Proof. reflexivity. Qed.

Example num_unit_non_finite :
  _num_unit [("a", VFloat NaN); ("b", VStr "inf")] ["a"; "b"] (Fin 1) = Fin 1.
Proof. reflexivity. Qed.


End Normalizer.

(* ================================================================== *)
(** * Capital flow *)

Section CapitalFlow.
Import MoneyFlow.
Local Open Scope Q_scope.

Definition finite (x : pyfloat) : Prop := isfinite x = true.

Lemma series_of_finite (w : Upstream) (keys : list string) (r : response) :
  Forall finite (series_of w keys r).
Proof.
  destruct r as [|f]; cbn [series_of]; [constructor|].
  rewrite Forall_forall. intros x Hx. apply filter_In in Hx. destruct Hx as [Hx _].
  apply in_map_iff in Hx. destruct Hx as (r & <- & _).
  apply num_unit_finite. reflexivity.
Qed.

Lemma hist_series_finite (w : Upstream) (endpoint : string -> response)
      (symbols : list string) :
  Forall finite (hist_series w endpoint symbols).
Proof.
  induction symbols as [|s symbols IH]; cbn [hist_series]; [constructor|].
  pose proof (series_of_finite w
                ["当日成交净买额"; "当日净流入"; "净买额"; "净流入"]%string (endpoint s)) as F.
  destruct (series_of _ _ _) as [|x xs]; [exact IH|].
  apply py_slice_Forall. exact F.
Qed.

Lemma northbound_series_finite (w : Upstream) :
  Forall finite (_load_northbound_series w).
Proof.
  unfold _load_northbound_series.
  destruct (negb (runtime_present w)); [constructor|].
  pose proof (series_of_finite w ["value"; "净流入"; "当日净流入"; "净买额"]%string
                (stock_hsgt_north_net_flow_in_em w)) as F.
  destruct (series_of _ _ _) as [|x xs].
  - destruct (stock_hsgt_hist_em w); [apply hist_series_finite|constructor].
  - apply py_slice_Forall. exact F.
Qed.

Lemma rank_flow_finite (w : Upstream) (endpoint : string -> response)
      (symbol : string) (indicators : list string) :
  finite (rank_flow w endpoint symbol indicators).
Proof.
  induction indicators as [|i indicators IH]; cbn [rank_flow]; [reflexivity|].
  destruct (endpoint i) as [|f]; [exact IH|].
  destruct (matching_row _ _); [apply num_unit_finite; reflexivity|exact IH].
Qed.

Lemma symbol_main_flow_finite (w : Upstream) (symbol : string) :
  finite (_load_symbol_main_flow w symbol).
Proof.
  unfold _load_symbol_main_flow.
  destruct (negb (runtime_present w)); [reflexivity|].
  assert (finite match stock_individual_fund_flow_rank w with
                 | Some endpoint => rank_flow w endpoint symbol ["今日"; "5日"; "10日"]%string
                 | None => Fin 0
                 end) as R.
  { destruct (stock_individual_fund_flow_rank w); [apply rank_flow_finite|reflexivity]. }
  destruct (stock_individual_fund_flow w symbol) as [|f]; [exact R|].
  destruct (rev _); [exact R|apply num_unit_finite; reflexivity].
Qed.

Lemma main_flow_of_finite (w : Upstream) (symbol : option string) (net : Q) :
  finite (main_flow_of w symbol (Fin net)).
Proof.
  unfold main_flow_of. destruct (given symbol);
    [apply symbol_main_flow_finite|reflexivity].
Qed.

Lemma finite_fin (x : pyfloat) : finite x -> exists q, x = Fin q.
Proof. destruct x; try discriminate. eauto. Qed.

(** [xs[-1]] on a list that is not empty. *)
Lemma index_back_last {A} (xs : list A) :
  xs <> [] -> exists front x, xs = (front ++ [x])%list /\ py_index_back xs 1 = Ok x.
Proof.
  intro H. destruct (exists_last H) as (front & x & ->).
  exists front, x. split; [reflexivity|].
  unfold py_index_back. rewrite rev_app_distr. reflexivity.
Qed.

(** What the live path of [analyze_capital_flow] returns. *)
Lemma analyze_capital_flow_live (w : Upstream) (symbol : option string) :
  runtime_present w = true ->
  _load_northbound_series w <> [] ->
  exists front net flow,
    _load_northbound_series w = (front ++ [Fin net])%list
    /\ main_flow_of w symbol (Fin net) = Fin flow
    /\ analyze_capital_flow w symbol
       = Ok {| MoneyFlow.symbol := symbol_or_market symbol;
               main_flow := Qtrunc flow;
               northbound_net := Qtrunc net;
               northbound_inflow_days :=
                 _count_consecutive_inflow (_load_northbound_series w);
               flow_trend :=
                 if (0 <? _count_consecutive_inflow (_load_northbound_series w))%Z
                 then (PyStr.string_of_Z
                         (_count_consecutive_inflow (_load_northbound_series w))
                       ++ "-day-inflow")%string
                 else "outflow"%string;
               MoneyFlow.strength_rank := strength_tier (Fin flow);
               data_source := "akshare-live" |}.
Proof.
  intros Hrt Hne.
  destruct (index_back_last _ Hne) as (front & x & Hx & Hlast).
  pose proof (northbound_series_finite w) as F. rewrite Hx in F.
  apply Forall_app in F. destruct F as [_ F]. inversion F as [|? ? Fx _]; subst.
  destruct (finite_fin _ Fx) as (net & ->).
  destruct (finite_fin _ (main_flow_of_finite w symbol net)) as (flow & Hflow).
  exists front, net, flow. split; [exact Hx|]. split; [exact Hflow|].
  unfold analyze_capital_flow. rewrite Hrt. cbn [negb].
  destruct (_load_northbound_series w) as [|y ys] eqn:E; [congruence|].
  rewrite Hlast. cbn [Py.bind]. rewrite Hflow. reflexivity.
Qed.

Lemma fge_fin (a b : Q) : fge (Fin a) (Fin b) = true <-> b <= a.
Proof. unfold fge. apply fle_fin. Qed.

Lemma fge_fin_false (a b : Q) : fge (Fin a) (Fin b) = false <-> a < b.
Proof.
  split; intro H.
  - destruct (Qlt_le_dec a b) as [L|L]; [exact L|].
    apply fge_fin in L. congruence.
  - destruct (fge (Fin a) (Fin b)) eqn:E; [|reflexivity].
    apply fge_fin in E. lra.
Qed.




Lemma find_all_false {A} (f : A -> bool) (l : list A) :
  (forall x, In x l -> f x = false) -> find f l = None.
Proof.
  induction l as [|x l IH]; intro H; [reflexivity|].
  cbn [find]. rewrite (H x (or_introl eq_refl)). apply IH.
  intros y Hy. apply H. right. exact Hy.
Qed.

Lemma rank_flow_unmatched (w : Upstream) (endpoint : string -> response)
      (symbol : string) (indicators : list string) :
  (forall indicator,
      In indicator indicators ->
      endpoint indicator = Raises
      \/ exists f, endpoint indicator = Returns f
                   /\ forall r, In r (_to_records w f) -> rank_code r <> symbol) ->
  rank_flow w endpoint symbol indicators = Fin 0.
Proof.
  induction indicators as [|i indicators IH]; intro H; [reflexivity|].
  cbn [rank_flow].
  destruct (H i (or_introl eq_refl)) as [-> | (f & -> & Hf)].
  - apply IH. intros j Hj. apply H. right. exact Hj.
  - unfold matching_row. rewrite find_all_false.
    + apply IH. intros j Hj. apply H. right. exact Hj.
    + intros r Hr. apply String.eqb_neq. apply Hf. exact Hr.
Qed.

(** C10.  With a symbol given and the northbound series loaded, when the
    fund-flow history fails or is empty and each of the three ranked
    snapshots fails or lists no row for the symbol, [main_flow] is 0 and
    [strength_rank] is 30, while [data_source] is still "akshare-live". *)
Theorem symbol_lookup_degrades_silently (w : Upstream) (s : string) :
  runtime_present w = true ->
  s <> ""%string ->
  _load_northbound_series w <> [] ->
  (stock_individual_fund_flow w s = Raises
   \/ exists f, stock_individual_fund_flow w s = Returns f /\ _to_records w f = []) ->
  (forall endpoint indicator,
      stock_individual_fund_flow_rank w = Some endpoint ->
      In indicator ["今日"; "5日"; "10日"]%string ->
      endpoint indicator = Raises
      \/ exists f, endpoint indicator = Returns f
                   /\ forall r, In r (_to_records w f) -> rank_code r <> s) ->
  exists p,
    analyze_capital_flow w (Some s) = Ok p
    /\ main_flow p = 0%Z
    /\ MoneyFlow.strength_rank p = 30%Z
    /\ data_source p = "akshare-live"%string.
Proof.
  intros Hrt Hs Hne Hhist Hrank.
  assert (_load_symbol_main_flow w s = Fin 0) as Hzero.
  { unfold _load_symbol_main_flow. rewrite Hrt. cbn [negb].
    assert (match stock_individual_fund_flow_rank w with
            | Some endpoint => rank_flow w endpoint s ["今日"; "5日"; "10日"]%string
            | None => Fin 0
            end = Fin 0) as ->.
    { destruct (stock_individual_fund_flow_rank w) as [endpoint|] eqn:E;
        [|reflexivity].
      apply rank_flow_unmatched. intros i Hi. apply (Hrank endpoint i eq_refl Hi). }
    destruct Hhist as [-> | (f & -> & ->)]; reflexivity. }
  destruct (analyze_capital_flow_live w (Some s) Hrt Hne)
    as (front & net & flow & _ & Hflow & Hp).
  assert (given (Some s) = Some s) as Hg by (destruct s; [congruence|reflexivity]).
  unfold main_flow_of in Hflow. rewrite Hg, Hzero in Hflow. injection Hflow as <-.
  eexists. split; [exact Hp|]. repeat split.
Qed.

Lemma symbol_lookup_degrades_silently_witness :
  exists p,
    analyze_capital_flow unmatched_flow (Some "300001"%string) = Ok p
    /\ main_flow p = 0%Z
    /\ northbound_net p = 1250000000%Z
    /\ MoneyFlow.strength_rank p = 30%Z
    /\ data_source p = "akshare-live"%string.
Proof.
  destruct (symbol_lookup_degrades_silently unmatched_flow "300001"%string)
    as (p & Hp & Hflow & Hrank & Hsrc).
  - reflexivity.
  - discriminate.
  - vm_compute. discriminate.
  - right. eexists. split; reflexivity.
  - intros endpoint indicator E Hin. injection E as <-.
    destruct (String.eqb indicator "5日") eqn:E5; [left; reflexivity|].
    right. eexists. split; [reflexivity|].
    intros r [<-|[]]. vm_compute. discriminate.
  - exists p. split; [exact Hp|]. split; [exact Hflow|].
    split; [|split; assumption].
    vm_compute in Hp. injection Hp as <-. reflexivity.
Defined.

End CapitalFlow.

(* ================================================================== *)
(** * Market sentiment: the date probe *)

Section Sentiment.
Import MarketData.
Local Open Scope Z_scope.

(** The limit-up pool of a date is empty or its call fails. *)
Definition pool_empty (w : Upstream) (d : Z) : Prop :=
  records_or_empty w (stock_zt_pool_em w d) = [].

Lemma recent_trade_dates_In (w : Upstream) (days : nat) (d : Z) :
  In d (_recent_trade_dates w days)
  <-> (today w - Z.of_nat days < d <= today w /\ weekday d < 5).
Proof.
  unfold _recent_trade_dates. rewrite filter_In, in_map_iff. split.
  - intros [(o & <- & Ho) Hw]. apply in_seq in Ho. split; [lia|]. lia.
  - intros [Hd Hw]. split; [|lia].
    exists (Z.to_nat (today w - d)). split; [lia|]. apply in_seq. lia.
Qed.

Lemma filter_sorted {A} (R : A -> A -> Prop) (f : A -> bool) (l : list A) :
  StronglySorted R l -> StronglySorted R (filter f l).
Proof.
  induction 1 as [|x l Hs IH Hx]; cbn [filter]; [constructor|].
  destruct (f x); [|exact IH]. constructor; [exact IH|].
  rewrite Forall_forall in *. intros y Hy. apply filter_In in Hy. apply Hx, Hy.
Qed.

Lemma offsets_sorted (t : Z) (start len : nat) :
  StronglySorted (fun a b => b < a)
                 (map (fun offset => t - Z.of_nat offset) (seq start len)).
Proof.
  revert start. induction len as [|len IH]; intro start; cbn [seq map];
    constructor; [apply IH|].
  rewrite Forall_forall. intros y Hy. apply in_map_iff in Hy.
  destruct Hy as (o & <- & Ho). apply in_seq in Ho. lia.
Qed.

(** Newest first. *)
Lemma recent_trade_dates_sorted (w : Upstream) (days : nat) :
  StronglySorted (fun a b => b < a) (_recent_trade_dates w days).
Proof. apply filter_sorted, offsets_sorted. Qed.


(** What the probe loop leaves behind: either every date was tried and
    found empty, or it stopped at the first date with records. *)
Lemma probe_limit_up_spec (w : Upstream) (dates : list Z) :
  match snd (probe_limit_up w dates) with
  | None =>
      Forall (pool_empty w) dates
      /\ map call_date (fst (probe_limit_up w dates)) = dates
  | Some (d, records) =>
      exists before after,
        dates = (before ++ d :: after)%list
        /\ Forall (pool_empty w) before
        /\ records = records_or_empty w (stock_zt_pool_em w d)
        /\ records <> []
        /\ map call_date (fst (probe_limit_up w dates)) = (before ++ [d])%list
  end.
Proof.
  induction dates as [|d dates IH]; cbn [probe_limit_up].
  - cbn. split; constructor.
  - destruct (stock_zt_pool_em w d) as [|f] eqn:E.
    + destruct (probe_limit_up w dates) as [log found]. cbn [fst snd] in *.
      destruct found as [[d' records]|].
      * destruct IH as (before & after & -> & Hb & Hr & Hne & Hlog).
        exists (d :: before), after. cbn [map app call_date].
        repeat split; try assumption.
        -- constructor; [|exact Hb]. unfold pool_empty. rewrite E. reflexivity.
        -- rewrite Hlog. reflexivity.
      * destruct IH as [Hall Hlog]. cbn [map call_date]. split.
        -- constructor; [|exact Hall]. unfold pool_empty. rewrite E. reflexivity.
        -- rewrite Hlog. reflexivity.
    + destruct (_to_records w f) as [|r rs] eqn:R.
      * destruct (probe_limit_up w dates) as [log found]. cbn [fst snd] in *.
        destruct found as [[d' records]|].
        -- destruct IH as (before & after & -> & Hb & Hr & Hne & Hlog).
           exists (d :: before), after. cbn [map app call_date].
           repeat split; try assumption.
           ++ constructor; [|exact Hb]. unfold pool_empty. rewrite E. exact R.
           ++ rewrite Hlog. reflexivity.
        -- destruct IH as [Hall Hlog]. cbn [map call_date]. split.
           ++ constructor; [|exact Hall]. unfold pool_empty. rewrite E. exact R.
           ++ rewrite Hlog. reflexivity.
      * cbn [fst snd map call_date]. exists [], dates. cbn [app].
        repeat split; try constructor.
        -- rewrite E. cbn [records_or_empty]. rewrite R. reflexivity.
        -- discriminate.
Qed.




Lemma py_div_nonzero (x : pyfloat) (z : Z) :
  z <> 0 -> py_div x (of_Z z) = Ok (fdiv x (of_Z z)).
Proof.
  intro Hz. unfold py_div, of_Z. cbn [feqb].
  destruct (Qeq_bool (inject_Z z) 0) eqn:E; [|reflexivity].
  apply Qeq_bool_eq in E. exfalso. apply Hz.
  unfold Qeq in E. cbn in E. lia.
Qed.





(** The limit-up pool fails today, is empty on Tuesday and has two rows
    on Monday. *)
Definition monday_pool : Upstream :=
  {| ak_present := true;
     pd_present := true;
     today := a_wednesday;
     stock_zt_pool_em :=
       fun d => if (d =? a_wednesday)%Z then Raises
                else if (d =? a_wednesday - 1)%Z then Returns (DataFrame [])
                else if (d =? a_wednesday - 2)%Z
                then Returns (DataFrame [ [("连板数", VInt 4); ("状态", VStr "封板")];
                                          [("连板数", VStr "2"); ("状态", VStr "开板")] ])
                else Returns FNone;
     stock_zt_pool_dtgc_em := fun _ => Raises;
     stock_zt_pool_zbgc_em := None;
     stock_zh_a_spot_em := Raises;
     stock_board_industry_name_em := Raises;
     stock_board_concept_name_em := None;
     stock_board_industry_cons_em := None;
     stock_board_concept_cons_em := None;
     stock_zh_a_hist := fun _ => Raises;
     stock_hsgt_north_net_flow_in_em := Raises;
     stock_hsgt_hist_em := None;
     stock_individual_fund_flow := fun _ => Raises;
     stock_individual_fund_flow_rank := None |}.

(** From a Wednesday the ten calendar days hold eight weekdays. *)
Example recent_dates_from_wednesday :
  _recent_trade_dates monday_pool 10
  = [739560; 739559; 739558; 739555; 739554; 739553; 739552; 739551].
Proof. reflexivity. Qed.

Example probe_stops_on_monday :
  map call_date (fst (probe_limit_up monday_pool (_recent_trade_dates monday_pool 10)))
  = [739560; 739559; 739558]
  /\ map ok (fst (probe_limit_up monday_pool (_recent_trade_dates monday_pool 10)))
     = [false; true; true].
Proof. split; reflexivity. Qed.

Example sentiment_on_monday :
  exists s,
    get_market_sentiment monday_pool = Ok s
    /\ date s = 739558 /\ limit_up s = 2 /\ limit_down s = 0 /\ max_height s = 4
    /\ feqb (break_rate s) (Fin (1 # 3)) = false
    /\ feqb (break_rate s) (Fin 0.3333) = true
    /\ data_source s = "akshare-live"%string.
Proof. eexists. split; [vm_compute; reflexivity|]. repeat split. Qed.

Example sentiment_all_empty :
  get_market_sentiment (silent true a_wednesday)
  = Ok (_fallback_market_sentiment (silent true a_wednesday)).
Proof. reflexivity. Qed.

End Sentiment.

(* ================================================================== *)
(** * The scanner *)

(** One spot row passes every rule; its history has exactly five rows. *)
Definition history_row (open_ close_ volume : Q) : row :=
  [("开盘", VFloat (Fin open_)); ("收盘", VFloat (Fin close_));
   ("成交量", VFloat (Fin volume))].

Definition five_day_history : list row :=
  [ history_row 10 10 100; history_row 10 10.1 100; history_row 10.1 10.2 100;
    history_row 10.2 10.3 100; history_row 10.3 10.9 400 ].

Definition spot_row : row :=
  [("代码", VStr "600519"); ("名称", VStr "Moutai"); ("涨跌幅", VFloat (Fin 6.0));
   ("量比", VFloat (Fin 2.0)); ("所处行业", VStr "白酒")].

Definition scanner_world (history : list row) : Upstream :=
  {| ak_present := true;
     pd_present := true;
     today := a_wednesday;
     stock_zt_pool_em := fun _ => Raises;
     stock_zt_pool_dtgc_em := fun _ => Raises;
     stock_zt_pool_zbgc_em := None;
     stock_zh_a_spot_em := Returns (DataFrame [spot_row]);
     stock_board_industry_name_em := Raises;
     stock_board_concept_name_em := None;
     stock_board_industry_cons_em := None;
     stock_board_concept_cons_em := None;
     stock_zh_a_hist := fun _ => Returns (DataFrame history);
     stock_hsgt_north_net_flow_in_em := Raises;
     stock_hsgt_hist_em := None;
     stock_individual_fund_flow := fun _ => Raises;
     stock_individual_fund_flow_rank := None |}.

Section Scanner.
Import MarketData.
Local Open Scope Q_scope.

Definition closes_of (records : list row) : list pyfloat :=
  map (fun x => _num x ["收盘"]%string (Fin 0)) records.

Definition volumes_of (records : list row) : list pyfloat :=
  map (fun x => _num x ["成交量"]%string (Fin 0)) records.

Definition code_of (r : row) : string := _str r ["代码"; "股票代码"]%string "".

(** [xs[-6:-1]] on a list that is not empty: the up to five elements just
    before the last one. *)
Lemma slice_before_last {A} (xs : list A) :
  xs <> [] ->
  exists front latest,
    xs = (front ++ py_slice xs (Some (-6)%Z) (Some (-1)%Z) ++ [latest])%list
    /\ List.length (py_slice xs (Some (-6)%Z) (Some (-1)%Z))
       = Nat.min 5 (List.length xs - 1).
Proof.
  intro Hne. destruct (exists_last Hne) as (body & latest & ->).
  set (n := List.length body).
  assert (List.length (body ++ [latest]) = S n) as Hlen
      by (rewrite length_app; cbn; unfold n; lia).
  unfold py_slice. rewrite Hlen. unfold clip.
  assert ((-6 <? 0)%Z = true) as -> by reflexivity.
  assert ((-1 <? 0)%Z = true) as -> by reflexivity.
  set (i := Z.to_nat (Z.max (Z.of_nat (S n) + -6) 0)).
  assert (Z.to_nat (Z.max (Z.of_nat (S n) + -1) 0) = n) as -> by lia.
  assert (i <= n)%nat as Hi by (unfold i; lia).
  assert (skipn i (body ++ [latest]) = skipn i body ++ [latest])%list as ->.
  { rewrite skipn_app. replace (i - List.length body)%nat with 0%nat by (fold n; lia).
    reflexivity. }
  assert (List.length (skipn i body) = n - i)%nat as Hsk
      by (rewrite length_skipn; reflexivity).
  rewrite firstn_app, Hsk. replace (n - i - (n - i))%nat with 0%nat by lia.
  cbn [firstn]. rewrite app_nil_r.
  rewrite firstn_all2 by lia.
  exists (firstn i body), latest. split.
  - rewrite app_assoc, firstn_skipn. reflexivity.
  - rewrite Hsk. unfold i. lia.
Qed.

Lemma index_back_last_eq {A} (front : list A) (x : A) :
  py_index_back (front ++ [x]) 1 = Ok x.
Proof. unfold py_index_back. rewrite rev_app_distr. reflexivity. Qed.

(** A ratio above 1.5 is a genuine quotient. *)
Lemma volume_ratio_above (latest baseline : pyfloat) :
  fle (Indicators.volume_ratio latest baseline) (Fin 1.5) = false ->
  fgt (Indicators.volume_ratio latest baseline) (Fin 1.5) = true
  /\ exists l b, latest = Fin l /\ baseline = Fin b /\ 0 < b
                 /\ Indicators.volume_ratio latest baseline = Fin (l / b).
Proof.
  unfold Indicators.volume_ratio.
  assert (fle (Fin 0) (Fin 1.5) = true) as Z0 by reflexivity.
  destruct latest as [l| | |], baseline as [b| | |]; try congruence.
  destruct (Qltb 0 b && Qle_bool 0 l) eqn:G; [|congruence].
  apply andb_true_iff in G. destruct G as [Gb _]. apply Qltb_true in Gb.
  intro H. split.
  - unfold fgt. cbn [flt]. unfold fle in H. cbn [flt feqb] in H.
    apply orb_false_iff in H. destruct H as [H1 H2].
    apply Qltb_false in H1. apply Qltb_true.
    destruct (Qlt_le_dec 1.5 (l / b)) as [L|L]; [exact L|].
    exfalso. apply Qeq_bool_neq in H2. apply H2. lra.
  - exists l, b. auto.
Qed.

(** The rules of the deep filter that concern the history. *)
Lemma deep_filter_survivor (w : Upstream) (allowed : option (list string))
      (r : row) (c : StockCandidate) :
  deep_filter w allowed r = Ok (Some c) ->
  exists hist latest baseline,
    stock_zh_a_hist w (code_of r) = Returns hist
    /\ (5 <= List.length (_to_records w hist))%nat
    /\ Indicators.trend_up (closes_of (_to_records w hist)) 3 = true
    /\ py_index_back (volumes_of (_to_records w hist)) 1 = Ok latest
    /\ py_div (py_sum (py_slice (volumes_of (_to_records w hist))
                                (Some (-6)%Z) (Some (-1)%Z)))
              (of_nat (Nat.max (List.length
                                  (py_slice (volumes_of (_to_records w hist))
                                            (Some (-6)%Z) (Some (-1)%Z))) 1))
       = Ok baseline
    /\ volume_ratio c = Indicators.volume_ratio latest baseline
    /\ fle (volume_ratio c) (Fin 1.5) = false
    /\ code c = code_of r.
Proof.
  unfold deep_filter. fold (code_of r).
  destruct (fle _ _); [discriminate|].
  destruct (fle _ _); [discriminate|].
  destruct (negb _); [discriminate|].
  destruct (stock_zh_a_hist w (code_of r)) as [|hist]; [discriminate|].
  destruct (Nat.ltb _ _) eqn:L; [discriminate|].
  fold (closes_of (_to_records w hist)). fold (volumes_of (_to_records w hist)).
  destruct (Indicators.trend_up _ _) eqn:T; [|discriminate]. cbn [negb].
  intro H. py_inv H. py_inv H.
  destruct (fle (Indicators.volume_ratio v0 v) (Fin 1.5)) eqn:V; [discriminate|].
  py_inv H. py_inv H. py_inv H. py_inv H.
  destruct (_ && _); [discriminate|]. injection H as <-.
  exists hist, v0, v. cbn [volume_ratio code].
  apply Nat.ltb_ge in L. repeat split; assumption.
Qed.

Lemma deep_filter_all_In (w : Upstream) (allowed : option (list string))
      (universe : list row) (cs : list StockCandidate) (c : StockCandidate) :
  deep_filter_all w allowed universe = Ok cs -> In c cs ->
  exists r, In r universe /\ deep_filter w allowed r = Ok (Some c).
Proof.
  revert cs. induction universe as [|r universe IH]; cbn [deep_filter_all]; intros cs H Hc.
  - injection H as <-. contradiction.
  - py_inv H. py_inv H. injection H as <-.
    destruct v as [c'|].
    + destruct Hc as [<-|Hc]; [exists r; split; [left; reflexivity|assumption]|].
      destruct (IH _ Hstep0 Hc) as (r' & Hr' & Hd). exists r'. split; [right|]; assumption.
    + destruct (IH _ Hstep0 Hc) as (r' & Hr' & Hd). exists r'. split; [right|]; assumption.
Qed.

Lemma universe_of_In (allowed : option (list string)) (rows : list row) (r : row) :
  In r (universe_of allowed rows) -> In r rows.
Proof.
  unfold universe_of. intro H. apply py_slice_In in H. apply sort_desc_In in H.
  apply filter_In in H. tauto.
Qed.

(** The shape of a result of the live path. *)
Lemma scan_live (w : Upstream) (sectors : option (list string)) (top_n : Z)
      (spot : frame) (out : list StockCandidate) :
  runtime_present w = true ->
  stock_zh_a_spot_em w = Returns spot ->
  _to_records w spot <> [] ->
  scan_strong_stocks w sectors top_n = Ok out ->
  exists cs,
    deep_filter_all w (allowed_codes w sectors)
                    (universe_of (allowed_codes w sectors) (_to_records w spot)) = Ok cs
    /\ out = map with_rank
                (enumerate 1 (py_slice (sort_desc candidate_gt cs) None (Some top_n))).
Proof.
  intros Hrt Hspot Hrows. unfold scan_strong_stocks. rewrite Hrt, Hspot. cbn [negb].
  destruct (_to_records w spot) as [|r rows] eqn:E; [congruence|].
  intro H. py_inv H. injection H as <-. exists v. split; [exact Hstep|reflexivity].
Qed.

Lemma enumerate_In {A} (start : Z) (xs : list A) (i : Z) (x : A) :
  In (i, x) (enumerate start xs) -> In x xs.
Proof.
  revert start. induction xs as [|y xs IH]; cbn [enumerate]; intros start H;
    [contradiction|].
  destruct H as [H|H]; [injection H as _ <-; left; reflexivity|right; eapply IH, H].
Qed.

(** C6, amended.  In the deep filter a candidate whose history fetch
    fails or returns fewer than 5 rows is dropped.  A surviving candidate
    has a 3-day upward trend of the trailing closes, and its volume ratio
    is the volume of the latest day divided by the mean volume of the
    days just before it, five of them when the history has at least six
    rows and four when it has exactly five, and is greater than 1.5.
    Every candidate that the live scanner returns is such a survivor. *)
Theorem deep_filter_history_rules (w : Upstream) :
  (forall allowed r,
      stock_zh_a_hist w (code_of r) = Raises -> deep_filter w allowed r = Ok None)
  /\ (forall allowed r hist,
        stock_zh_a_hist w (code_of r) = Returns hist ->
        (List.length (_to_records w hist) < 5)%nat ->
        deep_filter w allowed r = Ok None)
  /\ (forall allowed r c,
        deep_filter w allowed r = Ok (Some c) ->
        exists hist front window l b,
          stock_zh_a_hist w (code_of r) = Returns hist
          /\ (5 <= List.length (_to_records w hist))%nat
          /\ Indicators.trend_up (closes_of (_to_records w hist)) 3 = true
          /\ volumes_of (_to_records w hist) = (front ++ window ++ [Fin l])%list
          /\ List.length window = Nat.min 5 (List.length (_to_records w hist) - 1)
          /\ py_div (py_sum window) (of_nat (List.length window)) = Ok (Fin b)
          /\ 0 < b
          /\ volume_ratio c = Fin (l / b)
          /\ fgt (volume_ratio c) (Fin 1.5) = true)
  /\ (forall sectors top_n spot out d,
        runtime_present w = true ->
        stock_zh_a_spot_em w = Returns spot ->
        _to_records w spot <> [] ->
        scan_strong_stocks w sectors top_n = Ok out ->
        In d out ->
        exists r c idx,
          In r (_to_records w spot)
          /\ deep_filter w (allowed_codes w sectors) r = Ok (Some c)
          /\ d = with_rank (idx, c)).
Proof.
  split; [|split; [|split]].
  - intros allowed r H. unfold deep_filter. fold (code_of r). rewrite H.
    repeat match goal with |- context [if ?c then _ else _] => destruct c end;
      reflexivity.
  - intros allowed r hist H L. unfold deep_filter. fold (code_of r). rewrite H.
    apply Nat.ltb_lt in L. rewrite L.
    repeat match goal with |- context [if ?c then _ else _] => destruct c end;
      reflexivity.
  - intros allowed r c H.
    destruct (deep_filter_survivor _ _ _ _ H)
      as (hist & latest & baseline & Hh & Hlen & Ht & Hlast & Hbase & Hv & Hgt & _).
    set (volumes := volumes_of (_to_records w hist)) in *.
    assert (List.length volumes = List.length (_to_records w hist)) as Hvl
        by (unfold volumes, volumes_of; apply length_map).
    assert (volumes <> []) as Hne by (destruct volumes; [cbn in Hvl; lia|discriminate]).
    destruct (slice_before_last volumes Hne) as (front & x & Hsplit & Hwin).
    set (window := py_slice volumes (Some (-6)%Z) (Some (-1)%Z)) in *.
    assert (latest = x) as ->.
    { rewrite Hsplit, app_assoc, index_back_last_eq in Hlast.
      injection Hlast as <-. reflexivity. }
    rewrite Hv in Hgt. destruct (volume_ratio_above _ _ Hgt)
      as (Hgt' & l & b & -> & -> & Hb & Hq).
    exists hist, front, window, l, b.
    rewrite Hvl in Hwin.
    replace (Nat.max (List.length window) 1) with (List.length window) in Hbase by lia.
    rewrite Hv, Hq. rewrite Hq in Hgt'.
    repeat split; assumption.
  - intros sectors top_n spot out d Hrt Hspot Hrows Hscan Hd.
    destruct (scan_live _ _ _ _ _ Hrt Hspot Hrows Hscan) as (cs & Hcs & ->).
    apply in_map_iff in Hd. destruct Hd as ([idx c] & <- & Hin).
    apply enumerate_In in Hin. apply py_slice_In in Hin. apply sort_desc_In in Hin.
    destruct (deep_filter_all_In _ _ _ _ _ Hcs Hin) as (r & Hr & Hdf).
    exists r, c, idx. split; [eapply universe_of_In, Hr|]. split; [exact Hdf|reflexivity].
Qed.

(** Scenario B of the specification: four rows of history. *)
Example four_rows_dropped :
  deep_filter (scanner_world (tl five_day_history)) None spot_row = Ok None
  /\ scan_strong_stocks (scanner_world (tl five_day_history)) None 10 = Ok [].
Proof. split; reflexivity. Qed.

(** Five rows of history: the baseline is the mean of four days. *)
Example five_rows_kept :
  exists c,
    deep_filter (scanner_world five_day_history) None spot_row = Ok (Some c)
    /\ feqb (volume_ratio c) (Fin 4) = true.
Proof. eexists. split; [vm_compute; reflexivity|reflexivity]. Qed.

(** C6 as stated fails: with exactly five rows of history the candidate
    survives, and there are no five days before the latest one to take
    the mean of. *)
Lemma five_row_history_has_four_day_baseline :
  ~ (forall (w : Upstream) (allowed : option (list string)) (r : row) (c : StockCandidate),
        deep_filter w allowed r = Ok (Some c) ->
        exists hist front window latest baseline,
          stock_zh_a_hist w (code_of r) = Returns hist
          /\ volumes_of (_to_records w hist) = (front ++ window ++ [latest])%list
          /\ List.length window = 5%nat
          /\ py_div (py_sum window) (Fin 5) = Ok baseline
          /\ volume_ratio c = Indicators.volume_ratio latest baseline).
Proof.
  intro H.
  destruct five_rows_kept as (c & Hc & _).
  destruct (H _ _ _ _ Hc) as (hist & front & window & latest & baseline
                              & Hh & Hv & Hw & _).
  injection Hh as <-.
  apply (f_equal (@List.length pyfloat)) in Hv.
  rewrite !length_app, Hw in Hv. cbn in Hv. lia.
Qed.

(** ** Ranks *)

(** The ranks [start, start + 1, ...] of [n] candidates. *)
Definition ranks_from (start : Z) (n : nat) : list Z :=
  map (fun i => (start + Z.of_nat i)%Z) (seq 0 n).

Lemma ranks_from_succ (start : Z) (n : nat) :
  ranks_from start (S n) = start :: ranks_from (start + 1) n.
Proof.
  unfold ranks_from. cbn [seq map]. f_equal; [lia|].
  rewrite <- seq_shift, map_map. apply map_ext. intro i. lia.
Qed.

Lemma enumerated_ranks (start : Z) (cs : list StockCandidate) :
  map strength_rank (map with_rank (enumerate start cs))
  = ranks_from start (List.length cs).
Proof.
  revert start. induction cs as [|c cs IH]; intro start; [reflexivity|].
  cbn [enumerate map List.length]. rewrite ranks_from_succ, IH. reflexivity.
Qed.

Lemma enumerate_length {A} (start : Z) (xs : list A) :
  List.length (enumerate start xs) = List.length xs.
Proof.
  revert start. induction xs as [|x xs IH]; intro start; [reflexivity|].
  cbn [enumerate List.length]. rewrite IH. reflexivity.
Qed.

(** X1.  On the live path the ranks are 1..k, and at most [top_n]
    candidates are returned for a [top_n] that is not negative. *)
Lemma live_ranks_dense (w : Upstream) (sectors : option (list string)) (top_n : Z)
      (spot : frame) (out : list StockCandidate) :
  runtime_present w = true ->
  stock_zh_a_spot_em w = Returns spot ->
  _to_records w spot <> [] ->
  scan_strong_stocks w sectors top_n = Ok out ->
  map strength_rank out = ranks_from 1 (List.length out)
  /\ ((0 <= top_n)%Z -> (Z.of_nat (List.length out) <= top_n)%Z).
Proof.
  intros Hrt Hspot Hrows Hscan.
  destruct (scan_live _ _ _ _ _ Hrt Hspot Hrows Hscan) as (cs & _ & ->).
  rewrite enumerated_ranks, length_map, enumerate_length. split; [reflexivity|].
  apply py_slice_prefix_length.
Qed.

(** C8 at the failing input.  akshare is missing and the allow-list names
    one of the three fallback sectors: the single candidate returned
    keeps its static rank 3, so the ranks are not 1..k. *)
Theorem fallback_filter_keeps_static_rank :
  exists c,
    scan_strong_stocks offline (Some ["Robotics"%string]) 10 = Ok [c]
    /\ code c = "688888"%string
    /\ strength_rank c = 3%Z
    /\ map strength_rank [c] <> ranks_from 1 1.
Proof.
  eexists. split; [reflexivity|]. cbn. repeat split. discriminate.
Qed.

(** [base[:-1]]: a negative [top_n] drops from the end. *)
Example fallback_negative_top_n :
  List.length (_fallback_scan_strong_stocks None (-1)) = 2%nat.
Proof. reflexivity. Qed.

End Scanner.

(* ================================================================== *)
(** * Which operations always return *)

(** The industry-sector snapshot has one row; [up_count] is its count of
    rising stocks. *)
Definition sector_world (up_count : pyval) : Upstream :=
  {| ak_present := true;
     pd_present := true;
     today := a_wednesday;
     stock_zt_pool_em := fun _ => Raises;
     stock_zt_pool_dtgc_em := fun _ => Raises;
     stock_zt_pool_zbgc_em := None;
     stock_zh_a_spot_em := Raises;
     stock_board_industry_name_em :=
       Returns (DataFrame [ [("板块名称", VStr "半导体");
                             ("涨跌幅", VFloat (Fin 2.5));
                             ("成交额", VFloat (Fin 1000000));
                             ("上涨家数", up_count);
                             ("涨停家数", VInt 2)] ]);
     stock_board_concept_name_em := None;
     stock_board_industry_cons_em := None;
     stock_board_concept_cons_em := None;
     stock_zh_a_hist := fun _ => Raises;
     stock_hsgt_north_net_flow_in_em := Raises;
     stock_hsgt_hist_em := None;
     stock_individual_fund_flow := fun _ => Raises;
     stock_individual_fund_flow_rank := None |}.


Section Totality.
Import MarketData.
Local Open Scope Q_scope.












End Totality.

(* ================================================================== *)
(** * Further properties of the operations *)

Section Further.
Import MarketData.
Local Open Scope Q_scope.

(** X1, run: the one survivor of the five-day history has rank 1. *)
Lemma live_ranks_dense_witness :
  exists out,
    scan_strong_stocks (scanner_world five_day_history) None 10 = Ok out
    /\ map strength_rank out = [1%Z]
    /\ (Z.of_nat (List.length out) <= 10)%Z.
Proof.
  destruct (scan_strong_stocks (scanner_world five_day_history) None 10)
    as [out|e] eqn:E; [|vm_compute in E; discriminate].
  exists out.
  assert (_to_records (scanner_world five_day_history) (DataFrame [spot_row]) <> [])
    as Hrows by (cbn; discriminate).
  destruct (live_ranks_dense (scanner_world five_day_history) None 10
              (DataFrame [spot_row]) out eq_refl eq_refl Hrows E) as [D B].
  split; [reflexivity|]. split; [|apply B; lia].
  rewrite D. vm_compute in E. injection E as <-. reflexivity.
Defined.


Lemma string_length_append (s1 s2 : string) :
  String.length (s1 ++ s2) = (String.length s1 + String.length s2)%nat.
Proof.
  induction s1 as [|c s1 IH]; [reflexivity|]. cbn. rewrite IH. reflexivity.
Qed.

Lemma count_inflow_bounds (newest_first : list pyfloat) :
  (0 <= MoneyFlow.count_inflow newest_first
   <= Z.of_nat (List.length newest_first))%Z.
Proof.
  induction newest_first as [|x xs IH]; cbn [MoneyFlow.count_inflow List.length];
    [lia|].
  destruct (fgt x (Fin 0)); lia.
Qed.

(** X3.  On the live path of [analyze_capital_flow] the reported
    [northbound_inflow_days] is between 0 and the length of the series,
    it is 0 when the latest point is not positive, and [flow_trend] is
    "outflow" exactly when it is 0. *)
Theorem inflow_days_bounds (w : Upstream) (symbol : option string) :
  runtime_present w = true ->
  MoneyFlow._load_northbound_series w <> [] ->
  exists p front latest,
    MoneyFlow.analyze_capital_flow w symbol = Ok p
    /\ MoneyFlow._load_northbound_series w = (front ++ [latest])%list
    /\ (0 <= MoneyFlow.northbound_inflow_days p
        <= Z.of_nat (List.length (MoneyFlow._load_northbound_series w)))%Z
    /\ (fgt latest (Fin 0) = false -> MoneyFlow.northbound_inflow_days p = 0%Z)
    /\ (MoneyFlow.northbound_inflow_days p = 0%Z
        <-> MoneyFlow.flow_trend p = "outflow"%string).
Proof.
  intros Hrt Hne.
  destruct (analyze_capital_flow_live w symbol Hrt Hne)
    as (front & net & flow & Hseries & _ & Hp).
  eexists. exists front, (Fin net). split; [exact Hp|].
  cbn [MoneyFlow.northbound_inflow_days MoneyFlow.flow_trend].
  split; [exact Hseries|].
  pose proof (count_inflow_bounds (rev (MoneyFlow._load_northbound_series w))) as B.
  rewrite length_rev in B. fold (MoneyFlow._count_consecutive_inflow
                                   (MoneyFlow._load_northbound_series w)) in B.
  split; [exact B|]. split.
  - intro Hlast. unfold MoneyFlow._count_consecutive_inflow.
    rewrite Hseries, rev_app_distr. cbn [rev app MoneyFlow.count_inflow].
    rewrite Hlast. reflexivity.
  - set (days := MoneyFlow._count_consecutive_inflow _) in *.
    destruct (0 <? days)%Z eqn:E.
    + split; [intro H0; rewrite H0 in E; discriminate|].
      intro H. exfalso.
      assert (String.length (PyStr.string_of_Z days ++ "-day-inflow")
              = String.length "outflow") as L by (rewrite H; reflexivity).
      rewrite string_length_append in L. cbn in L. lia.
    + split; [reflexivity|]. intros _. apply Z.ltb_ge in E. lia.
Qed.

Lemma inflow_days_bounds_witness :
  exists p,
    MoneyFlow.analyze_capital_flow unmatched_flow None = Ok p
    /\ MoneyFlow.northbound_inflow_days p = 1%Z
    /\ MoneyFlow.flow_trend p = "1-day-inflow"%string.
Proof.
  destruct (inflow_days_bounds unmatched_flow None)
    as (p & front & latest & Hp & _ & _ & _ & _).
  - reflexivity.
  - vm_compute. discriminate.
  - exists p. split; [exact Hp|].
    vm_compute in Hp. injection Hp as <-. split; reflexivity.
Defined.



End Further.

(* ================================================================== *)
(** * The field resolvers [_num] and [_str] *)

Section Resolvers.
Import MarketData.




(** ** [strip] *)









End Resolvers.

(* ================================================================== *)
(** * The sentiment payload *)

Section SentimentPayload.
Import MarketData.
Local Open Scope Q_scope.




Lemma py_round_unit (x : pyfloat) : within 0 1 x -> within 0 1 (py_round x 4).
Proof.
  intro H.
  apply (within_weaken (inject_Z 0 / inject_Z (10 ^ Z.of_nat 4))
                       (inject_Z 10000 / inject_Z (10 ^ Z.of_nat 4)));
    [vm_compute; discriminate|vm_compute; discriminate|].
  apply py_round_within_grid.
  revert H. apply within_weaken; vm_compute; discriminate.
Qed.

Lemma fold_max_nonneg (zs : list Z) (a : Z) : (0 <= a)%Z -> (0 <= fold_left Z.max zs a)%Z.
Proof.
  revert a. induction zs as [|z zs IH]; intros a Ha; [exact Ha|].
  cbn [fold_left]. apply IH. lia.
Qed.

(** X8.  Every payload of [get_market_sentiment] has [limit_up >= 1],
    [limit_down >= 0], [max_height >= 0] and a [break_rate] between 0 and
    1; its source is "fallback" or "akshare-live", and a live payload
    counts the rows of the limit-up pool of its own date. *)
Theorem sentiment_payload_invariants (w : Upstream) (s : MarketSentiment) :
  get_market_sentiment w = Ok s ->
  (1 <= limit_up s)%Z
  /\ (0 <= limit_down s)%Z
  /\ (0 <= max_height s)%Z
  /\ within 0 1 (break_rate s)
  /\ (s = _fallback_market_sentiment w
      \/ data_source s = "akshare-live"%string
         /\ In (date s) (_recent_trade_dates w 10)
         /\ limit_up s
            = Z.of_nat (List.length (records_or_empty w (stock_zt_pool_em w (date s))))).
Proof.
  assert (forall x, x = _fallback_market_sentiment w ->
            (1 <= limit_up x)%Z /\ (0 <= limit_down x)%Z /\ (0 <= max_height x)%Z
            /\ within 0 1 (break_rate x)) as Hfb.
  { intros x ->. cbn. repeat split; try lia; discriminate. }
  unfold get_market_sentiment.
  destruct (negb (runtime_present w)).
  { intro H. injection H as <-. destruct (Hfb _ eq_refl) as (A & B & C & D). auto 6. }
  pose proof (probe_limit_up_spec w (_recent_trade_dates w 10)) as P.
  destruct (snd (probe_limit_up w (_recent_trade_dates w 10))) as [[d records]|].
  2: { intro H. injection H as <-. destruct (Hfb _ eq_refl) as (A & B & C & D). auto 6. }
  destruct P as (before & after & Hdates & _ & Hrec & Hne & _).
  intro H. py_inv H. py_inv H. py_inv H. injection H as <-.
  cbn [limit_up limit_down max_height break_rate data_source date].
  assert (1 <= Z.of_nat (List.length records))%Z as Hlu
      by (destruct records; [congruence|cbn [List.length]; lia]).
  split; [exact Hlu|]. split; [lia|]. split; [apply fold_max_nonneg; lia|].
  split.
  - apply py_round_unit.
    match type of Hstep0 with
    | (if ?c then _ else py_div (of_Z ?b) (of_Z ?t)) = _ =>
        assert (0 <= b)%Z as Hb
          by (destruct (Z.of_nat _ =? 0)%Z; lia);
        assert (b < t)%Z as Ht by lia;
        destruct c eqn:C; [lia|];
        rewrite py_div_nonzero in Hstep0 by lia;
        injection Hstep0 as <-;
        unfold of_Z; cbn [fdiv];
        assert (Qeq_bool (inject_Z t) 0 = false) as ->
      end.
    { match goal with |- Qeq_bool ?x 0 = false =>
        destruct (Qeq_bool x 0) eqn:E; [|reflexivity] end.
      apply Qeq_bool_eq in E. unfold Qeq in E. cbn in E. lia. }
    cbn [within].
    match goal with |- 0 <= inject_Z ?b / inject_Z ?t /\ _ =>
      assert (0 < inject_Z t) as Tp
        by (change 0 with (inject_Z 0); rewrite <- Zlt_Qlt; lia);
      assert (0 <= inject_Z b) as Bp
        by (change 0 with (inject_Z 0); rewrite <- Zle_Qle; lia);
      assert (inject_Z b <= inject_Z t) as Bt by (rewrite <- Zle_Qle; lia)
    end.
    split.
    + apply Qle_shift_div_l; [exact Tp|lra].
    + apply Qle_shift_div_r; [exact Tp|lra].
  - right. split; [reflexivity|]. split.
    + rewrite Hdates. apply in_or_app. right. left. reflexivity.
    + rewrite <- Hrec. reflexivity.
Qed.

Lemma sentiment_payload_invariants_witness :
  exists s,
    get_market_sentiment monday_pool = Ok s
    /\ limit_up s = 2%Z
    /\ within 0 1 (break_rate s)
    /\ data_source s = "akshare-live"%string.
Proof.
  destruct (get_market_sentiment monday_pool) as [s|e] eqn:E;
    [|vm_compute in E; discriminate].
  exists s.
  destruct (sentiment_payload_invariants _ _ E) as (_ & _ & _ & Hb & _).
  split; [reflexivity|]. split; [|split; [exact Hb|]];
    vm_compute in E; injection E as <-; reflexivity.
Defined.

End SentimentPayload.

(* ================================================================== *)
(** * Sorted results *)

Section SortedResults.
Local Open Scope Q_scope.

Lemma flt_asym (a b : pyfloat) : flt a b = true -> flt b a = false.
Proof.
  destruct a as [p| | |], b as [q| | |]; cbn; try discriminate; try reflexivity.
  intro H. apply Qltb_true in H. apply Qltb_false. lra.
Qed.

Lemma fgt_asym (a b : pyfloat) : fgt a b = true -> fgt b a = false.
Proof. unfold fgt. apply flt_asym. Qed.

(** No element is followed by one that compares strictly greater. *)
Definition descending {A} (gt : A -> A -> bool) (l : list A) : Prop :=
  Sorted (fun a b => gt b a = false) l.

Lemma insert_desc_sorted {A} (gt : A -> A -> bool) (x : A) (l : list A) :
  (forall a b, gt a b = true -> gt b a = false) ->
  descending gt l -> descending gt (insert_desc gt x l).
Proof.
  intros asym. unfold descending.
  induction l as [|y l IH]; intro H; cbn [insert_desc].
  - repeat constructor.
  - destruct (gt y x) eqn:E.
    + inversion H as [|? ? Hs Hh]; subst. constructor; [apply IH, Hs|].
      destruct l as [|z l]; cbn [insert_desc].
      * constructor. apply asym, E.
      * destruct (gt z x); constructor.
        -- inversion Hh; assumption.
        -- apply asym, E.
    + constructor; [exact H|]. constructor. exact E.
Qed.

Lemma sort_desc_sorted {A} (gt : A -> A -> bool) (l : list A) :
  (forall a b, gt a b = true -> gt b a = false) ->
  descending gt (sort_desc gt l).
Proof.
  intro asym. induction l as [|x l IH]; cbn [sort_desc]; [constructor|].
  apply insert_desc_sorted; assumption.
Qed.

Lemma firstn_sorted {A} (R : A -> A -> Prop) (n : nat) (l : list A) :
  Sorted R l -> Sorted R (firstn n l).
Proof.
  revert l. induction n as [|n IH]; intros l H; [constructor|].
  destruct l as [|x l]; [constructor|].
  inversion H as [|? ? Hs Hh]; subst. cbn [firstn]. constructor; [apply IH, Hs|].
  destruct n; [constructor|]. destruct l; cbn [firstn]; [constructor|].
  inversion Hh; constructor; assumption.
Qed.

(** [xs[:n]] is a prefix for every [n], negative or not. *)
Lemma py_slice_is_prefix {A} (l : list A) (n : Z) :
  exists k, py_slice l None (Some n) = firstn k l
            /\ ((0 <= n)%Z -> k = Nat.min (Z.to_nat n) (List.length l)).
Proof.
  unfold py_slice. cbn [skipn]. rewrite Nat.sub_0_r.
  eexists. split; [reflexivity|]. intro Hn. unfold clip.
  assert ((n <? 0)%Z = false) as -> by lia. lia.
Qed.

Lemma py_slice_sorted {A} (R : A -> A -> Prop) (l : list A) (n : Z) :
  Sorted R l -> Sorted R (py_slice l None (Some n)).
Proof.
  intro H. destruct (py_slice_is_prefix l n) as (k & -> & _).
  apply firstn_sorted, H.
Qed.

Lemma py_slice_prefix_exact {A} (l : list A) (n : Z) :
  (0 <= n)%Z ->
  List.length (py_slice l None (Some n)) = Nat.min (Z.to_nat n) (List.length l).
Proof.
  intro Hn. destruct (py_slice_is_prefix l n) as (k & -> & Hk).
  rewrite (Hk Hn), length_firstn. lia.
Qed.

Lemma mapM_length {A B} (f : A -> Py.t B) (xs : list A) (ys : list B) :
  Py.mapM f xs = Ok ys -> List.length ys = List.length xs.
Proof.
  intro H. apply mapM_ok_Forall2 in H. symmetry. eapply Forall2_length, H.
Qed.

Lemma mapM_In {A B} (f : A -> Py.t B) (xs : list A) (ys : list B) (y : B) :
  Py.mapM f xs = Ok ys -> In y ys -> exists x, In x xs /\ f x = Ok y.
Proof.
  intro H. apply mapM_ok_Forall2 in H.
  induction H as [|x y' xs ys Hxy _ IH]; intro Hy; [contradiction|].
  destruct Hy as [<-|Hy].
  - exists x. split; [left; reflexivity|exact Hxy].
  - destruct (IH Hy) as (x' & Hx' & Hf). exists x'. split; [right|]; assumption.
Qed.

End SortedResults.

(* ================================================================== *)
(** * Sector rotation: the shape of the result *)

Section SectorShape.
Import MarketData.
Local Open Scope Z_scope.

(** The rows that [get_sector_rotation] scores: the industry snapshot,
    or the concept snapshot when the industry one is empty. *)
Definition sector_rows (w : Upstream) : list row :=
  match records_or_empty w (stock_board_industry_name_em w),
        stock_board_concept_name_em w with
  | [], Some concept => records_or_empty w concept
  | rows, _ => rows
  end.

Lemma get_sector_rotation_rows (w : Upstream) (top_n : Z) :
  get_sector_rotation w top_n
  = if negb (runtime_present w) then Ok (_fallback_sector_rotation w)
    else
      match sector_rows w with
      | [] => Ok (_fallback_sector_rotation w)
      | first :: others =>
          let turnover r := _num_unit r ["成交额"; "总成交额"; "总市值"]%string (Fin 0) in
          sectors <- Py.mapM (sector_entry (max_or_one (turnover first)
                                                       (map turnover others)))
                             (sector_rows w) ;;
          Ok {| rotation_date := today w;
                top_sectors :=
                  py_slice (sort_desc (fun y x => fgt (strength y) (strength x)) sectors)
                           None (Some top_n);
                rotation_source := "akshare-live" |}
      end.
Proof.
  unfold get_sector_rotation, sector_rows.
  destruct (negb (runtime_present w)); [reflexivity|].
  destruct (records_or_empty w (stock_board_industry_name_em w)) as [|r rs];
    [destruct (stock_board_concept_name_em w) as [concept|]|]; try reflexivity.
  destruct (records_or_empty w concept); reflexivity.
Qed.

Lemma sector_entry_fields (m : pyfloat) (r : row) (s : SectorStrength) :
  sector_entry m r = Ok s ->
  sector_name s = _str r ["板块名称"; "名称"]%string "UNKNOWN"
  /\ board_code s = Some (_str r ["板块代码"; "代码"]%string "")
  /\ exists up count,
       py_int (_num r ["上涨家数"]%string (Fin 0)) = Ok up
       /\ py_int (_num r ["涨停家数"]%string (Fin 0)) = Ok count
       /\ (count <> 0 \/ up <= 0 -> limit_up_count s = count)
       /\ (count = 0 -> 0 < up ->
           py_int (of_Z up * Fin 0.08)%F = Ok (limit_up_count s)).
Proof.
  unfold sector_entry. intro H.
  py_inv H. py_inv H. py_inv H. py_inv H. py_inv H. injection H as <-.
  cbn [sector_name board_code limit_up_count].
  split; [reflexivity|]. split; [reflexivity|].
  exists v, v0. split; [assumption|]. split; [assumption|].
  destruct (v0 =? 0) eqn:E0; destruct (0 <? v) eqn:Eu; cbn [andb] in Hstep1;
    split; intros; try lia; try (injection Hstep1 as <-; reflexivity);
    try exact Hstep1.
Qed.

(** X9.  [get_sector_rotation] either returns the static fallback, with
    its three sectors whatever [top_n] is, or a live payload: then it
    holds [min(top_n, rows)] sectors for a [top_n] that is not negative,
    no sector is followed by one of strictly greater strength, and every
    sector carries the name and board code of one of the scored rows.  The
    fallback is taken exactly when the runtime is missing or no sector row
    was obtained. *)
Theorem sector_rotation_shape (w : Upstream) (top_n : Z) (r : SectorRotation) :
  get_sector_rotation w top_n = Ok r ->
  (r = _fallback_sector_rotation w
   /\ List.length (top_sectors r) = 3%nat
   /\ (runtime_present w = false \/ sector_rows w = []))
  \/ (runtime_present w = true
      /\ sector_rows w <> []
      /\ rotation_source r = "akshare-live"%string
      /\ (0 <= top_n ->
          List.length (top_sectors r)
          = Nat.min (Z.to_nat top_n) (List.length (sector_rows w)))
      /\ descending (fun y x => fgt (strength y) (strength x)) (top_sectors r)
      /\ (forall s, In s (top_sectors r) ->
                    exists row, In row (sector_rows w)
                                /\ sector_name s
                                   = _str row ["板块名称"; "名称"]%string "UNKNOWN"
                                /\ board_code s
                                   = Some (_str row ["板块代码"; "代码"]%string ""))).
Proof.
  rewrite get_sector_rotation_rows.
  destruct (runtime_present w) eqn:Hrt; cbn [negb].
  2: { intro H. injection H as <-. left. auto. }
  destruct (sector_rows w) as [|row0 rows] eqn:Hrows.
  { intro H. injection H as <-. left. auto. }
  cbv zeta. intro H. py_inv H. injection H as <-. right.
  cbn [rotation_source top_sectors].
  split; [reflexivity|]. split; [discriminate|]. split; [reflexivity|].
  split; [|split].
  - intro Hn. rewrite py_slice_prefix_exact by exact Hn.
    rewrite (Permutation_length (sort_desc_perm _ v)).
    rewrite (mapM_length _ _ _ Hstep). reflexivity.
  - apply py_slice_sorted. apply sort_desc_sorted.
    intros a b. apply fgt_asym.
  - intros s Hs. apply py_slice_In in Hs. apply sort_desc_In in Hs.
    destruct (mapM_In _ _ _ _ Hstep Hs) as (row & Hrow & Hentry).
    destruct (sector_entry_fields _ _ _ Hentry) as (Hn & Hc & _).
    exists row. auto.
Qed.

Lemma sector_rotation_shape_witness :
  exists r,
    get_sector_rotation (sector_world (VInt 30)) 5 = Ok r
    /\ List.length (top_sectors r) = 1%nat
    /\ map sector_name (top_sectors r) = ["半导体"%string].
Proof.
  destruct (get_sector_rotation (sector_world (VInt 30)) 5) as [r|e] eqn:E;
    [|vm_compute in E; discriminate].
  exists r. split; [reflexivity|].
  destruct (sector_rotation_shape _ _ _ E)
    as [(-> & _ & [C|C])|(_ & _ & _ & Hlen & _)];
    try (vm_compute in C; discriminate).
  split; [rewrite Hlen by lia; reflexivity|].
  vm_compute in E. injection E as <-. reflexivity.
Defined.

(** X10.  The count of limit-up stocks of a live sector is the cell
    "涨停家数" truncated by [int()]; only when that count is 0 and the
    count of rising stocks is positive is it replaced by [int(0.08 *
    up_count)]. *)
Theorem sector_limit_up_count (w : Upstream) (top_n : Z) (r : SectorRotation)
        (s : SectorStrength) :
  get_sector_rotation w top_n = Ok r ->
  rotation_source r = "akshare-live"%string ->
  In s (top_sectors r) ->
  exists row up count,
    In row (sector_rows w)
    /\ py_int (_num row ["上涨家数"]%string (Fin 0)) = Ok up
    /\ py_int (_num row ["涨停家数"]%string (Fin 0)) = Ok count
    /\ (count <> 0 \/ up <= 0 -> limit_up_count s = count)
    /\ (count = 0 -> 0 < up -> limit_up_count s = Qtrunc (inject_Z up * 0.08)).
Proof.
  rewrite get_sector_rotation_rows.
  destruct (runtime_present w); cbn [negb].
  2: { intro H. injection H as <-. discriminate. }
  destruct (sector_rows w) as [|row0 rows] eqn:Hrows.
  { intro H. injection H as <-. discriminate. }
  cbv zeta. intros H _ Hs. py_inv H. injection H as <-.
  cbn [top_sectors] in Hs. apply py_slice_In in Hs. apply sort_desc_In in Hs.
  destruct (mapM_In _ _ _ _ Hstep Hs) as (row & Hrow & Hentry).
  destruct (sector_entry_fields _ _ _ Hentry) as (_ & _ & up & count & A & B & C & D).
  exists row, up, count. repeat split; try assumption.
  intros H0 Hup. specialize (D H0 Hup). cbn in D. injection D as <-. reflexivity.
Qed.

Lemma sector_limit_up_count_witness :
  exists r s,
    get_sector_rotation (sector_world (VInt 30)) 5 = Ok r
    /\ In s (top_sectors r)
    /\ limit_up_count s = 2.
Proof.
  destruct (get_sector_rotation (sector_world (VInt 30)) 5) as [r|e] eqn:E;
    [|vm_compute in E; discriminate].
  assert (rotation_source r = "akshare-live"%string) as Hsrc
      by (vm_compute in E; injection E as <-; reflexivity).
  destruct (top_sectors r) as [|s rest] eqn:T;
    [vm_compute in E; injection E as <-; discriminate|].
  exists r, s. split; [reflexivity|]. split; [rewrite T; left; reflexivity|].
  assert (In s (top_sectors r)) as Hin by (rewrite T; left; reflexivity).
  destruct (sector_limit_up_count _ _ _ _ E Hsrc Hin) as (row & up & count & _).
  vm_compute in E. injection E as <-. injection T as <- _. reflexivity.
Defined.

End SectorShape.

(* ================================================================== *)
(** * The scanner: what a returned candidate went through *)

Section ScannerRules.
Import MarketData.
Local Open Scope Q_scope.

Definition change_of (r : row) : pyfloat := _num r ["涨跌幅"]%string (Fin 0).
Definition quoted_ratio_of (r : row) : pyfloat := _num r ["量比"]%string (Fin 0).

Lemma fgt_step (x : pyfloat) (a b : Q) :
  fgt x (Fin a) = true -> fle x (Fin b) = false -> fgt x (Fin b) = true.
Proof.
  unfold fgt, fle. destruct x as [q| | |]; cbn [flt feqb orb]; try discriminate;
    try reflexivity.
  intros _ H. apply orb_false_iff in H. destruct H as [H1 H2].
  apply Qltb_false in H1. apply Qeq_bool_neq in H2. apply Qltb_true.
  destruct (Qlt_le_dec b q) as [L|L]; [exact L|]. exfalso. apply H2. lra.
Qed.

(** The first three rules of the loop of lines 420-432. *)
Lemma deep_filter_stage_rules (w : Upstream) (allowed : option (list string))
      (r : row) (c : StockCandidate) :
  deep_filter w allowed r = Ok (Some c) ->
  fle (change_of r) (Fin 5) = false
  /\ fle (quoted_ratio_of r) (Fin 1.5) = false
  /\ is_allowed allowed (code_of r) = true
  /\ code c = code_of r
  /\ name c = _str r ["名称"; "股票名称"]%string ""
  /\ sector c = _str r ["所处行业"; "行业"]%string "UNKNOWN"
  /\ change_pct c = change_of r
  /\ strength_rank c = 0%Z.
Proof.
  unfold deep_filter. fold (code_of r) (change_of r) (quoted_ratio_of r).
  destruct (fle (change_of r) (Fin 5)); [discriminate|].
  destruct (fle (quoted_ratio_of r) (Fin 1.5)); [discriminate|].
  destruct (is_allowed allowed (code_of r)); [|discriminate]. cbn [negb].
  destruct (stock_zh_a_hist w (code_of r)) as [|hist]; [discriminate|].
  destruct (Nat.ltb _ _); [discriminate|].
  destruct (negb _); [discriminate|].
  intro H. py_inv H. py_inv H.
  destruct (fle _ _); [discriminate|].
  py_inv H. py_inv H. py_inv H. py_inv H.
  destruct (_ && _); [discriminate|]. injection H as <-.
  cbn. repeat split.
Qed.

Lemma universe_of_rules (allowed : option (list string)) (rows : list row) (r : row) :
  In r (universe_of allowed rows) ->
  In r rows /\ fgt (change_of r) (Fin 4.5) = true
  /\ is_allowed allowed (code_of r) = true.
Proof.
  unfold universe_of. intro H. apply py_slice_In in H. apply sort_desc_In in H.
  apply filter_In in H. destruct H as [Hin H]. apply andb_true_iff in H.
  destruct H. auto.
Qed.

Lemma py_slice_length_le {A} (l : list A) (start stop : option Z) :
  (List.length (py_slice l start stop) <= List.length l)%nat.
Proof.
  unfold py_slice. rewrite length_firstn, length_skipn. lia.
Qed.




(** X12.  When no constituent code can be resolved for any sector of the
    allow-list, the live path of [scan_strong_stocks] drops the
    constraint: it returns what it returns without an allow-list. *)
Theorem unresolved_allow_list_is_dropped (w : Upstream) (names : list string)
        (top_n : Z) (spot : frame) :
  runtime_present w = true ->
  stock_zh_a_spot_em w = Returns spot ->
  _to_records w spot <> [] ->
  (forall n, In n names -> sector_codes w n = []) ->
  scan_strong_stocks w (Some names) top_n = scan_strong_stocks w None top_n.
Proof.
  intros Hrt Hspot Hrows Hnone.
  assert (allowed_codes w (Some names) = None) as Ha.
  { unfold allowed_codes. destruct (given (Some names)) as [ns|] eqn:G; [|reflexivity].
    assert (ns = names) as -> by (destruct names; cbn in G; congruence).
    assert (flat_map (sector_codes w) names = []) as ->; [|reflexivity].
    clear G. induction names as [|n names IH]; [reflexivity|].
    cbn [flat_map]. rewrite (Hnone n (or_introl eq_refl)). cbn [app].
    apply IH. intros m Hm. apply Hnone. right. exact Hm. }
  unfold scan_strong_stocks. rewrite Hrt, Hspot. cbn [negb].
  destruct (_to_records w spot) as [|r rows]; [congruence|].
  rewrite Ha. reflexivity.
Qed.

Lemma unresolved_allow_list_is_dropped_witness :
  scan_strong_stocks (scanner_world five_day_history) (Some ["白酒"; "银行"]%string) 10
  = scan_strong_stocks (scanner_world five_day_history) None 10
  /\ exists d, scan_strong_stocks (scanner_world five_day_history)
                                  (Some ["白酒"; "银行"]%string) 10 = Ok [d].
Proof.
  split.
  - apply (unresolved_allow_list_is_dropped (scanner_world five_day_history)
             ["白酒"; "银行"]%string 10 (DataFrame [spot_row])).
    + reflexivity.
    + reflexivity.
    + cbn. discriminate.
    + intros n _. reflexivity.
  - eexists. vm_compute. reflexivity.
Defined.

Lemma candidate_gt_asym (a b : StockCandidate) :
  candidate_gt a b = true -> candidate_gt b a = false.
Proof.
  unfold candidate_gt.
  destruct (feqb (change_pct a) (change_pct b)) eqn:E.
  - assert (feqb (change_pct b) (change_pct a) = true) as ->.
    { destruct (change_pct a) as [p| | |], (change_pct b) as [q| | |];
        cbn [feqb] in *; try discriminate; try reflexivity.
      apply Qeq_bool_iff in E. apply Qeq_bool_iff. lra. }
    apply fgt_asym.
  - assert (feqb (change_pct b) (change_pct a) = false) as ->.
    { destruct (change_pct a) as [p| | |], (change_pct b) as [q| | |];
        cbn [feqb] in *; try discriminate; try reflexivity.
      apply Qeq_bool_neq in E. destruct (Qeq_bool q p) eqn:F; [|reflexivity].
      apply Qeq_bool_iff in F. exfalso. apply E. lra. }
    apply fgt_asym.
Qed.

Lemma fle_not_gt (x y : pyfloat) : fle x y = true -> fgt x y = false.
Proof.
  unfold fle, fgt. intro H. apply orb_true_iff in H. destruct H as [H|H].
  - apply flt_asym, H.
  - destruct x as [p| | |], y as [q| | |]; cbn [feqb flt] in *;
      try discriminate; try reflexivity.
    apply Qeq_bool_iff in H. apply Qltb_false. lra.
Qed.

(** The order of the sort of line 479, read on the rounded changes of the
    payload, for candidates that passed the rule of line 427. *)
Lemma rounded_change_order (a b : StockCandidate) :
  fgt (change_pct a) (Fin 5) = true ->
  fgt (change_pct b) (Fin 5) = true ->
  candidate_gt b a = false ->
  fgt (py_round (change_pct b) 2) (py_round (change_pct a) 2) = false.
Proof.
  unfold candidate_gt.
  destruct (change_pct a) as [p| | |], (change_pct b) as [q| | |];
    try discriminate; intros _ _ H.
  - apply fle_not_gt, py_round_mono.
    destruct (feqb (Fin q) (Fin p)) eqn:E.
    + cbn [feqb] in E. apply Qeq_bool_iff in E. lra.
    + unfold fgt in H. cbn [flt] in H. apply Qltb_false in H. exact H.
  - reflexivity.
  - reflexivity.
Qed.

Lemma ranked_sorted (R : StockCandidate -> StockCandidate -> Prop)
      (R' : StockCandidate -> StockCandidate -> Prop) (P : StockCandidate -> Prop)
      (l : list StockCandidate) (start : Z) :
  (forall a b i j, P a -> P b -> R a b -> R' (with_rank (i, a)) (with_rank (j, b))) ->
  Forall P l -> Sorted R l ->
  Sorted R' (map with_rank (enumerate start l)).
Proof.
  intros step. revert start. induction l as [|x l IH]; intros start HP HS;
    cbn [enumerate map]; [constructor|].
  inversion HP as [|? ? Px Pl]; subst. inversion HS as [|? ? Hs Hh]; subst.
  constructor; [apply IH; assumption|].
  destruct l as [|y l]; cbn [enumerate map]; [constructor|].
  inversion Hh; subst. inversion Pl; subst. constructor. apply step; assumption.
Qed.

(** X13.  The live path of [scan_strong_stocks] returns its candidates
    strongest first: along the returned list the reported [change_pct]
    never increases. *)
Theorem scanner_strongest_first (w : Upstream) (sectors : option (list string))
        (top_n : Z) (spot : frame) (out : list StockCandidate) :
  runtime_present w = true ->
  stock_zh_a_spot_em w = Returns spot ->
  _to_records w spot <> [] ->
  scan_strong_stocks w sectors top_n = Ok out ->
  descending (fun a b => fgt (change_pct a) (change_pct b)) out.
Proof.
  intros Hrt Hspot Hrows Hscan.
  destruct (scan_live _ _ _ _ _ Hrt Hspot Hrows Hscan) as (cs & Hcs & ->).
  unfold descending.
  apply (ranked_sorted (fun a b => candidate_gt b a = false) _
                       (fun c => fgt (change_pct c) (Fin 5) = true)).
  - intros a b i j Pa Pb Hab. cbn [with_rank to_dict change_pct].
    apply rounded_change_order; assumption.
  - apply Forall_forall. intros c Hc. apply py_slice_In in Hc.
    apply sort_desc_In in Hc.
    destruct (deep_filter_all_In _ _ _ _ _ Hcs Hc) as (r & Hr & Hdf).
    destruct (universe_of_rules _ _ _ Hr) as (_ & H45 & _).
    destruct (deep_filter_stage_rules _ _ _ _ Hdf) as (H5 & _ & _ & _ & _ & _ & Hch & _).
    rewrite Hch. eapply fgt_step; eassumption.
  - apply py_slice_sorted. apply sort_desc_sorted. exact candidate_gt_asym.
Qed.

(** Two rising stocks, the weaker one listed first. *)
Definition ranking_world : Upstream :=
  {| ak_present := true;
     pd_present := true;
     today := a_wednesday;
     stock_zt_pool_em := fun _ => Raises;
     stock_zt_pool_dtgc_em := fun _ => Raises;
     stock_zt_pool_zbgc_em := None;
     stock_zh_a_spot_em :=
       Returns (DataFrame [ spot_row;
                            [("代码", VStr "000001"); ("名称", VStr "PingAn");
                             ("涨跌幅", VFloat (Fin 8.5)); ("量比", VFloat (Fin 3.0));
                             ("所处行业", VStr "银行")] ]);
     stock_board_industry_name_em := Raises;
     stock_board_concept_name_em := None;
     stock_board_industry_cons_em := None;
     stock_board_concept_cons_em := None;
     stock_zh_a_hist := fun _ => Returns (DataFrame five_day_history);
     stock_hsgt_north_net_flow_in_em := Raises;
     stock_hsgt_hist_em := None;
     stock_individual_fund_flow := fun _ => Raises;
     stock_individual_fund_flow_rank := None |}.

Lemma scanner_strongest_first_witness :
  exists a b,
    scan_strong_stocks ranking_world None 10 = Ok [a; b]
    /\ code a = "000001"%string /\ code b = "600519"%string
    /\ descending (fun x y => fgt (change_pct x) (change_pct y)) [a; b].
Proof.
  destruct (scan_strong_stocks ranking_world None 10) as [out|e] eqn:E;
    [|vm_compute in E; discriminate].
  assert (descending (fun x y => fgt (change_pct x) (change_pct y)) out) as D.
  { eapply (scanner_strongest_first ranking_world None 10);
      [reflexivity|reflexivity| |exact E]. cbn. discriminate. }
  vm_compute in E. injection E as <-.
  eexists. eexists. split; [reflexivity|]. split; [reflexivity|].
  split; [reflexivity|exact D].
Defined.

End ScannerRules.

(* ================================================================== *)
(** * Capital flow: the series and the per-symbol lookup *)

Section CapitalSeries.
Import MoneyFlow.
Local Open Scope Q_scope.










Lemma count_inflow_split (newest_first : list pyfloat) :
  exists recent rest,
    newest_first = (recent ++ rest)%list
    /\ Forall (fun x => fgt x (Fin 0) = true) recent
    /\ count_inflow newest_first = Z.of_nat (List.length recent)
    /\ (rest = [] \/ exists x rest', rest = x :: rest' /\ fgt x (Fin 0) = false).
Proof.
  induction newest_first as [|x xs IH]; cbn [count_inflow].
  - exists [], []. repeat split; [constructor|left; reflexivity].
  - destruct (fgt x (Fin 0)) eqn:E.
    + destruct IH as (recent & rest & -> & Hpos & Hc & Hrest).
      exists (x :: recent), rest. split; [reflexivity|].
      split; [constructor; assumption|]. split; [|exact Hrest].
      rewrite Hc. cbn [List.length]. lia.
    + exists [], (x :: xs). split; [reflexivity|]. split; [constructor|].
      split; [reflexivity|]. right. exists x, xs. split; [reflexivity|exact E].
Qed.

(** X15.  [_count_consecutive_inflow] is the length of the longest run of
    values greater than 0 at the end of the list: the list splits into
    an older part and that run, and the older part is empty or ends with
    a value that is not greater than 0. *)
Theorem count_consecutive_inflow_longest_run (values : list pyfloat) :
  exists older recent,
    values = (older ++ recent)%list
    /\ Forall (fun x => fgt x (Fin 0) = true) recent
    /\ _count_consecutive_inflow values = Z.of_nat (List.length recent)
    /\ (older = [] \/ exists older' x, older = (older' ++ [x])%list
                                       /\ fgt x (Fin 0) = false).
Proof.
  unfold _count_consecutive_inflow.
  destruct (count_inflow_split (rev values)) as (recent & rest & Hsplit & Hpos & Hc & Hrest).
  exists (rev rest), (rev recent).
  split; [rewrite <- rev_app_distr, <- Hsplit, rev_involutive; reflexivity|].
  split; [apply Forall_rev, Hpos|].
  split; [rewrite length_rev; exact Hc|].
  destruct Hrest as [->|(x & rest' & -> & Hx)]; [left; reflexivity|].
  right. exists (rev rest'), x. split; [reflexivity|exact Hx].
Qed.





End CapitalSeries.

(* ================================================================== *)
(** * The calendar window and the static candidates *)

Section Calendar.
Import MarketData.
Local Open Scope Z_scope.

Lemma weekday_shift (t o : Z) : weekday (t - o) = (weekday t - o) mod 7.
Proof.
  unfold weekday. rewrite Zminus_mod_idemp_l. f_equal. lia.
Qed.

Lemma filter_map_length {A B} (f : B -> bool) (g : A -> B) (l : list A) :
  List.length (filter f (map g l)) = List.length (filter (fun a => f (g a)) l).
Proof.
  induction l as [|a l IH]; [reflexivity|]. cbn [map filter].
  destruct (f (g a)); cbn [List.length]; rewrite IH; reflexivity.
Qed.

Lemma weekdays_in_ten (r : Z) :
  0 <= r < 7 ->
  6 <= Z.of_nat (List.length (filter (fun o => (r - Z.of_nat o) mod 7 <? 5)
                                     (seq 0 10))) <= 8.
Proof.
  intro H.
  assert (r = 0 \/ r = 1 \/ r = 2 \/ r = 3 \/ r = 4 \/ r = 5 \/ r = 6) as C by lia.
  destruct C as [->|[->|[->|[->|[->|[->| ->]]]]]]; vm_compute; split;
    discriminate.
Qed.

(** X19.  [_recent_trade_dates] lists exactly the weekdays among the
    last [days] calendar days, today included, newest first and without
    repetition; for the default window of 10 days these are between 6
    and 8 dates. *)
Theorem recent_trade_dates_window (w : Upstream) :
  (forall days d,
      In d (_recent_trade_dates w days)
      <-> (today w - Z.of_nat days < d <= today w /\ weekday d < 5))
  /\ (forall days, StronglySorted (fun a b => b < a) (_recent_trade_dates w days))
  /\ 6 <= Z.of_nat (List.length (_recent_trade_dates w 10)) <= 8.
Proof.
  split; [intros days d; apply recent_trade_dates_In|].
  split; [intro days; apply recent_trade_dates_sorted|].
  unfold _recent_trade_dates. rewrite filter_map_length.
  assert (filter (fun a => weekday (today w - Z.of_nat a) <? 5) (seq 0 10)
          = filter (fun o => (weekday (today w) - Z.of_nat o) mod 7 <? 5) (seq 0 10))
    as ->.
  { apply filter_ext. intro o. rewrite weekday_shift. reflexivity. }
  apply weekdays_in_ten. unfold weekday. apply Z.mod_pos_bound. lia.
Qed.

End Calendar.

Section StaticCandidates.
Import MarketData.
Local Open Scope Z_scope.

Lemma prefix_nonempty {A} (x : A) (l : list A) (n : Z) :
  1 <= n -> py_slice (x :: l) None (Some n) <> [].
Proof.
  intro H. rewrite py_slice_prefix by lia.
  destruct (Z.to_nat n) as [|k] eqn:E; [lia|]. cbn [firstn]. discriminate.
Qed.

(** X18.  The static candidates of [_fallback_scan_strong_stocks].  What
    is returned is taken from the three built-in candidates, and for
    [top_n >= 1] it is never empty.  An allow-list that names the sector
    of a built-in candidate restricts the result to the named sectors;
    an allow-list that names none of the three sectors is ignored, and
    the result is the one without an allow-list. *)
Theorem fallback_scan_shape (sectors : option (list string)) (top_n : Z) :
  (forall d, In d (_fallback_scan_strong_stocks sectors top_n) -> In d fallback_base)
  /\ (List.length (_fallback_scan_strong_stocks sectors top_n) <= 3)%nat
  /\ (1 <= top_n -> _fallback_scan_strong_stocks sectors top_n <> [])
  /\ (forall names,
         sectors = Some names ->
         (exists b, In b fallback_base /\ mem (sector b) names = true) ->
         forall d, In d (_fallback_scan_strong_stocks sectors top_n) ->
                   mem (sector d) names = true)
  /\ (forall names,
         sectors = Some names ->
         (forall b, In b fallback_base -> mem (sector b) names = false) ->
         _fallback_scan_strong_stocks sectors top_n
         = _fallback_scan_strong_stocks None top_n).
Proof.
  unfold _fallback_scan_strong_stocks. cbv zeta.
  destruct (given sectors) as [names|] eqn:G.
  - assert (sectors = Some names) as -> by
        (destruct sectors as [[|n ns]|]; cbn in G; congruence).
    destruct (filter (fun x => mem (sector x) names) fallback_base) as [|x filt] eqn:F.
    + split; [intros d Hd; eapply py_slice_In, Hd|].
      split; [etransitivity; [apply py_slice_length_le|]; cbn; lia|].
      split; [intro H; apply prefix_nonempty, H|].
      split.
      * intros names' E (b & Hb & Hm). injection E as <-.
        assert (In b (filter (fun x => mem (sector x) names) fallback_base)) as Hin
            by (apply filter_In; split; assumption).
        rewrite F in Hin. contradiction.
      * intros names' E _. cbn [given]. reflexivity.
    + assert (forall d, In d (x :: filt) ->
                        In d fallback_base /\ mem (sector d) names = true) as Hf.
      { intros d Hd. rewrite <- F in Hd. apply filter_In in Hd. exact Hd. }
      split; [intros d Hd; apply Hf; eapply py_slice_In, Hd|].
      split.
      { etransitivity; [apply py_slice_length_le|]. rewrite <- F.
        etransitivity; [apply filter_length_le|]. cbn. lia. }
      split; [intro H; apply prefix_nonempty, H|].
      split.
      * intros names' E _ d Hd. injection E as <-. apply Hf. eapply py_slice_In, Hd.
      * intros names' E Hnone. injection E as <-.
        destruct (Hf x (or_introl eq_refl)) as [Hb Hm].
        rewrite (Hnone x Hb) in Hm. discriminate.
  - split; [intros d Hd; eapply py_slice_In, Hd|].
    split; [etransitivity; [apply py_slice_length_le|]; cbn; lia|].
    split; [intro H; apply prefix_nonempty, H|].
    split.
    + intros names E (b & Hb & Hm). subst sectors.
      destruct names as [|n ns]; [|cbn in G; discriminate].
      cbn in Hm. discriminate.
    + intros names E _. reflexivity.
Qed.

End StaticCandidates.

(* ================================================================== *)
(** * How the engine chains its four inputs *)

Section EngineChain.
Import MarketData FusionEngine.
Local Open Scope Z_scope.

Variable short_term_risk_control : pyfloat -> Risk.

(** [stocks[0]["code"] if stocks else None]. *)
Definition target_symbol (stocks : list StockCandidate) : option string :=
  match stocks with
  | top :: _ => Some (code top)
  | [] => None
  end.

Lemma engine_capital (w : Upstream) (p : FusedSignal) :
  short_term_signal_engine short_term_risk_control w = Ok p ->
  MoneyFlow.analyze_capital_flow w (target_symbol (candidates p)) = Ok (capital_flow p).
Proof.
  unfold short_term_signal_engine. intro H.
  py_inv H. py_inv H. py_inv H. py_inv H. py_inv H.
  match type of H with
  | context [decide ?s ?m] => destruct (decide s m) as [[sg cf] hd] eqn:D
  end.
  inversion H; subst p; clear H. cbn [candidates capital_flow]. assumption.
Qed.

Lemma capital_symbol (w : Upstream) (symbol : option string)
      (c : MoneyFlow.CapitalFlow) :
  MoneyFlow.analyze_capital_flow w symbol = Ok c ->
  MoneyFlow.symbol c = MoneyFlow.symbol_or_market symbol.
Proof.
  destruct (runtime_present w) eqn:Hrt.
  - destruct (MoneyFlow._load_northbound_series w) as [|x xs] eqn:E.
    + unfold MoneyFlow.analyze_capital_flow. rewrite Hrt, E. cbn [negb].
      intro H. injection H as <-. reflexivity.
    + destruct (analyze_capital_flow_live w symbol Hrt) as (f & n & fl & _ & _ & ->);
        [rewrite E; discriminate|].
      intro H. injection H as <-. reflexivity.
  - unfold MoneyFlow.analyze_capital_flow. rewrite Hrt. cbn [negb].
    intro H. injection H as <-. reflexivity.
Qed.

Lemma scan_length (w : Upstream) (sectors : option (list string)) (top_n : Z)
      (out : list StockCandidate) :
  0 <= top_n ->
  scan_strong_stocks w sectors top_n = Ok out ->
  Z.of_nat (List.length out) <= top_n.
Proof.
  intros Hn. unfold scan_strong_stocks.
  assert (Z.of_nat (List.length (_fallback_scan_strong_stocks sectors top_n))
          <= top_n) as Hfb.
  { unfold _fallback_scan_strong_stocks. cbv zeta.
    destruct (given sectors); [destruct (filter _ _)|];
      apply py_slice_prefix_length, Hn. }
  destruct (negb _); [intro H; injection H as <-; exact Hfb|].
  destruct (stock_zh_a_spot_em w) as [|spot];
    [intro H; injection H as <-; exact Hfb|].
  destruct (_to_records w spot); [intro H; injection H as <-; exact Hfb|].
  intro H. py_inv H. injection H as <-.
  rewrite length_map, enumerate_length. apply py_slice_prefix_length, Hn.
Qed.

Lemma rotation_length (w : Upstream) (top_n : Z) (r : SectorRotation) :
  3 <= top_n ->
  get_sector_rotation w top_n = Ok r ->
  Z.of_nat (List.length (MarketData.top_sectors r)) <= top_n.
Proof.
  intros Hn. rewrite get_sector_rotation_rows.
  destruct (negb _); [intro H; injection H as <-; cbn; lia|].
  destruct (sector_rows w) as [|first others];
    [intro H; injection H as <-; cbn; lia|].
  cbv zeta. intro H. py_inv H. injection H as <-. cbn [MarketData.top_sectors].
  apply py_slice_prefix_length. lia.
Qed.

(** X17.  In a payload of [short_term_signal_engine] there are at most 5
    sectors and at most 5 candidates, the candidates are the result of
    the scan restricted to the names of the reported sectors, and the
    capital flow is the one of the first candidate: its symbol is the
    code of the first candidate, and "market" when there is no candidate
    or its code is empty. *)
Theorem engine_chain (w : Upstream) (p : FusedSignal) :
  short_term_signal_engine short_term_risk_control w = Ok p ->
  (List.length (FusionEngine.top_sectors p) <= 5)%nat
  /\ (List.length (candidates p) <= 5)%nat
  /\ scan_strong_stocks w (Some (map sector_name (FusionEngine.top_sectors p))) 5
     = Ok (candidates p)
  /\ MoneyFlow.analyze_capital_flow w (target_symbol (candidates p))
     = Ok (capital_flow p)
  /\ MoneyFlow.symbol (capital_flow p)
     = match candidates p with
       | top :: _ => if String.eqb (code top) "" then "market"%string else code top
       | [] => "market"%string
       end.
Proof.
  intro H. pose proof (engine_capital _ _ H) as Hc.
  destruct (engine_payload short_term_risk_control _ _ H)
    as (info & sc & _ & Hrot & Htop & Hscan & _).
  split.
  { assert (3 <= 5) as B by lia.
    pose proof (rotation_length w 5 info B Hrot) as L. rewrite Htop. lia. }
  split.
  { assert (0 <= 5) as B by lia.
    pose proof (scan_length _ _ _ _ B Hscan) as L. lia. }
  split; [exact Hscan|]. split; [exact Hc|].
  rewrite (capital_symbol _ _ _ Hc).
  destruct (candidates p) as [|top rest]; [reflexivity|].
  cbn [target_symbol]. unfold MoneyFlow.symbol_or_market, MoneyFlow.given.
  destruct (code top) as [|a s]; reflexivity.
Qed.

End EngineChain.

Lemma engine_chain_witness :
  exists p,
    FusionEngine.short_term_signal_engine (gate true) scenario_c = Ok p
    /\ MoneyFlow.symbol (FusionEngine.capital_flow p) = "300001"%string
    /\ List.length (FusionEngine.candidates p) = 3%nat.
Proof.
  destruct (FusionEngine.short_term_signal_engine (gate true) scenario_c)
    as [p|e] eqn:E; [|vm_compute in E; discriminate].
  destruct (engine_chain (gate true) scenario_c p E) as (_ & _ & _ & _ & Hs).
  exists p. split; [reflexivity|].
  vm_compute in E. injection E as <-. split; reflexivity.
Defined.

(* ================================================================== *)
(** * A scan without survivors *)

Section NoCandidate.
Import Indicators MarketData FusionEngine.
Local Open Scope Q_scope.

Variable short_term_risk_control : pyfloat -> Risk.

Lemma round_below_70 (x : pyfloat) : within 0 70 x -> within 0 70 (py_round x 2).
Proof.
  intro H.
  apply (within_weaken (inject_Z 0 / inject_Z (10 ^ Z.of_nat 2))
                       (inject_Z 7000 / inject_Z (10 ^ Z.of_nat 2)));
    [vm_compute; discriminate|vm_compute; discriminate|].
  apply py_round_within_grid.
  revert H. apply within_weaken; vm_compute; discriminate.
Qed.

(** X20.  When the scan leaves no candidate, the stock and technical
    factors are 0, so the composite is at most 70: the engine never
    answers SHORT_BUY, whatever the risk gate says, and the capital flow
    it reports is the market-wide one. *)
Theorem no_candidate_no_short_buy (w : Upstream) (p : FusedSignal) :
  short_term_signal_engine short_term_risk_control w = Ok p ->
  candidates p = [] ->
  within 0 70 (score p)
  /\ signal p <> SHORT_BUY
  /\ MoneyFlow.symbol (capital_flow p) = "market"%string.
Proof.
  intros H Hempty.
  pose proof (engine_capital short_term_risk_control _ _ H) as Hc.
  destruct (engine_payload short_term_risk_control _ _ H)
    as (info & sc & Hsent & Hrot & Htop & _ & Hsec & _ & Hscore & Hsig & _).
  assert (within 0 70 (score p)) as Hs.
  { pose proof (sentiment_score_within _ _ Hsent) as Wa.
    pose proof (sector_strengths_within _ _ _ Hrot) as Wb. rewrite <- Htop in Wb.
    destruct (calc_sector_score_within _ Wb) as (m & Hm & Wm).
    rewrite Hsec in Hm. injection Hm as <-.
    assert (within 0 100 (_calc_capital_score (capital_flow p))) as Wc
        by (unfold _calc_capital_score; apply clamp_within; lra).
    rewrite Hscore, Hempty. cbn [_calc_stock_volume_score _calc_technical_score].
    destruct (within_fin _ _ _ Wa) as (a & -> & A1 & A2).
    destruct (within_fin _ _ _ Wm) as (b & -> & B1 & B2).
    destruct (within_fin _ _ _ Wc) as (c & -> & C1 & C2).
    unfold composite. cbn [fmul fadd]. apply round_below_70.
    match goal with
    | |- within 0 70 (clamp (Fin ?x) _ _) =>
        apply (within_weaken x x); [lra|lra|apply clamp_closed; lra]
    end. }
  split; [exact Hs|]. split.
  - destruct (within_fin _ _ _ Hs) as (s & Es & _ & S2).
    rewrite Hsig, Es. unfold decide.
    assert (fge (Fin s) (Fin 75) = false) as -> by (apply fge_fin_false; lra).
    cbn [andb]. destruct (fge (Fin s) (Fin 60) && _); cbn [fst]; discriminate.
  - rewrite (capital_symbol _ _ _ Hc), Hempty. reflexivity.
Qed.

End NoCandidate.

Lemma no_candidate_no_short_buy_witness :
  exists p,
    FusionEngine.short_term_signal_engine (gate true) (scanner_world []) = Ok p
    /\ FusionEngine.candidates p = []
    /\ FusionEngine.signal p = FusionEngine.NO_TRADE
    /\ MoneyFlow.symbol (FusionEngine.capital_flow p) = "market"%string.
Proof.
  destruct (FusionEngine.short_term_signal_engine (gate true) (scanner_world []))
    as [p|e] eqn:E; [|vm_compute in E; discriminate].
  assert (FusionEngine.candidates p = []) as Hempty
      by (vm_compute in E; injection E as <-; reflexivity).
  destruct (no_candidate_no_short_buy (gate true) (scanner_world []) p E Hempty)
    as (_ & _ & Hsym).
  exists p. split; [reflexivity|]. split; [exact Hempty|]. split; [|exact Hsym].
  vm_compute in E. injection E as <-. reflexivity.
Defined.
